(** * Proposal submission page: payment and submission workflow

    A shallow embedding of [src/utils/suiTransfer.js] (the payment
    initiator [handleSuiPayment]) and of [src/Pages/AgentPage.jsx] (the
    handlers [handleImageUpload] and [handleSubmit] and the submit button's
    [disabled] attribute), followed by the properties of the workflow.

    Handlers are embedded as finite trees of calls to the world outside
    them (wallet, HTTP client, notification layer, router, React state
    setters).  A tree is run against an environment that answers every
    call, which yields the completion of the handler and the ordered trace
    of the calls it made; the same tree is cut at its awaited calls to give
    the event-loop view of one page instance. *)

From Stdlib Require Import String Ascii List Bool NArith ZArith Lia.
Import ListNotations.

Local Open Scope string_scope.
Local Open Scope list_scope.

(** ** JavaScript strings

    Strings are sequences of code units below 256 (the Latin-1 range),
    which is where Rocq's [ascii] lives.  Code units above that range are
    outside the model. *)
Module JsString.

(** [String.prototype.toLowerCase] on one code unit of the Latin-1
    range: A..Z and the accented capitals U+00C0..U+00DE (the
    multiplication sign U+00D7 apart) move up by 32. *)
Definition lower_unit (c : ascii) : ascii :=
  let n := N_of_ascii c in
  if ((65 <=? n) && (n <=? 90)
      || (192 <=? n) && (n <=? 222) && negb (n =? 215))%N
  then ascii_of_N (n + 32)
  else c.

Fixpoint toLowerCase (s : string) : string :=
  match s with
  | EmptyString => EmptyString
  | String c s' => String (lower_unit c) (toLowerCase s')
  end.

(** [s.startsWith(p)]. *)
Definition startsWith (s p : string) : bool := String.prefix p s.

(** [s.includes(p)]: [p] occurs in [s] as a contiguous run. *)
Fixpoint includes (s p : string) : bool :=
  String.prefix p s ||
  match s with
  | EmptyString => false
  | String _ s' => includes s' p
  end.

(** A string is falsy exactly when it is empty. *)
Definition falsy (s : string) : bool :=
  match s with
  | EmptyString => true
  | String _ _ => false
  end.

(** The same letters in some mix of cases: unit by unit, the subject
    is the pattern's unit or the unit 32 below it.  Meant for patterns
    of small letters. *)
Definition unit_any_case (p c : ascii) : Prop :=
  c = p \/ N_of_ascii c = (N_of_ascii p - 32)%N.

Fixpoint any_case (p s : string) : Prop :=
  match p, s with
  | EmptyString, EmptyString => True
  | String a p', String c s' => unit_any_case a c /\ any_case p' s'
  | _, _ => False
  end.

(** [s] contains the word [p] in any letter case. *)
Definition contains_any_case (s p : string) : Prop :=
  exists pre mid post,
    s = (pre ++ mid ++ post)%string /\ any_case p mid.

Fixpoint small_letters (p : string) : bool :=
  match p with
  | EmptyString => true
  | String c p' =>
      ((97 <=? N_of_ascii c) && (N_of_ascii c <=? 122))%N && small_letters p'
  end.

End JsString.

(** ** Thrown values, settled promises, completions *)

(** An error object: its [name] and its [message], which may be absent.
    The wallet interface surfaces its failures as such objects. *)
Record JsError : Type := mkJsError {
  err_name : string;
  err_message : option string
}.

(** [new Error(msg)]. *)
Definition new_Error (msg : string) : JsError :=
  {| err_name := "Error"; err_message := Some msg |}.

(** The error of reading a property of [undefined]. *)
Definition TypeError (msg : string) : JsError :=
  {| err_name := "TypeError"; err_message := Some msg |}.

(** [error.message?.includes(p)]: an absent message is not a match. *)
Definition message_includes (e : JsError) (p : string) : bool :=
  match err_message e with
  | Some m => JsString.includes m p
  | None => false
  end.

(** [error.message?.toLowerCase().includes(p)]. *)
Definition message_lower_includes (e : JsError) (p : string) : bool :=
  match err_message e with
  | Some m => JsString.includes (JsString.toLowerCase m) p
  | None => false
  end.

(** A promise once it has settled. *)
Inductive Settled (A : Type) : Type :=
| Fulfilled (v : A)
| Rejected (e : JsError).
Arguments Fulfilled {A} v.
Arguments Rejected {A} e.

(** How a handler ends: it returns or it throws. *)
Inductive Completion (A : Type) : Type :=
| Returned (a : A)
| Threw (e : JsError).
Arguments Returned {A} a.
Arguments Threw {A} e.

(** ** Data of the two source files *)

(** Programmable transaction blocks, as far as [handleSuiPayment] builds
    them. *)
Inductive TxArg : Type :=
| GasCoin
| PureU64 (v : Z)
| PureString (s : string)
| NestedResult (command index : nat).

Inductive TxCommand : Type :=
| SplitCoins (coin : TxArg) (amounts : list TxArg)
| TransferObjects (objects : list TxArg) (address : TxArg).

Definition TransactionBlock : Type := list TxCommand.

Definition TransactionBlock_new : TransactionBlock := [].

(** [txb.splitCoins(coin, amounts)]: appends the command and hands back
    one result handle per amount. *)
Definition splitCoins (txb : TransactionBlock) (coin : TxArg)
    (amounts : list TxArg) : list TxArg * TransactionBlock :=
  (map (NestedResult (List.length txb)) (seq 0 (List.length amounts)),
   txb ++ [SplitCoins coin amounts]).

Definition transferObjects (txb : TransactionBlock) (objects : list TxArg)
    (address : TxArg) : TransactionBlock :=
  txb ++ [TransferObjects objects address].

Record SignOptions : Type := { showEvents : bool }.

Record SignRequest : Type := {
  transactionBlock : TransactionBlock;
  options : SignOptions
}.

Record SignResponse : Type := {
  resp_digest : string;
  resp_events : option (list string)
}.

(** The wallet's signing function, as a handle. *)
Inductive Signer : Type := WalletSigner (wallet : nat).

Record Receipt : Type := {
  digest : string;
  status : string;
  amount : Z;
  receiver : string
}.

Record File : Type := {
  file_name : string;
  size : N;
  type : string
}.

Record FormState : Type := {
  name : string;
  twitter : string;
  website : string;
  description : string;
  profilePicture : option File
}.

(** The form as [useState] creates it. *)
Definition initialFormData : FormState :=
  {| name := ""; twitter := ""; website := ""; description := "";
     profilePicture := None |}.

Inductive FormValue : Type :=
| TextField (s : string)
| FileField (f : File).

(** A multipart [FormData]: its entries in the order of the appends. *)
Definition FormData : Type := list (string * FormValue).

Definition append (d : FormData) (key : string) (v : FormValue) : FormData :=
  d ++ [(key, v)].

Record HttpResponse : Type := {
  http_status : nat;
  http_data : string
}.

Record Account : Type := { address : string }.

Definition ToastId : Type := string.

Inductive Choice : Type := Confirm | Cancel.

(** ** Calls to the world outside the handlers

    [op R] is a call whose answer has type [R].  Awaited calls answer
    with a settled promise (or, for the confirmation prompt, with the
    button the user clicked). *)
Inductive op : Type -> Type :=
| PreventDefault : op unit
| ConsoleError (label : string) (error : JsError) : op unit
| ToastError (msg : string) : op unit
| ToastLoading (msg : string) : op ToastId
| ToastSuccess (msg : string) (id : option ToastId) : op unit
(* [toast.promise] around the rendered Confirm / Cancel prompt: the
   notification layer shows the prompt and its three status messages;
   the answer is the button that was clicked. *)
| ToastConfirmPrompt (prompt loading success error : string) : op Choice
| SignAndExecute (signer : Signer) (request : SignRequest)
    : op (Settled SignResponse)
| AxiosPost (url : string) (data : FormData)
    (headers : list (string * string)) : op (Settled HttpResponse)
| ReadAsDataURL (file : File) : op (option string)
| SetLoading (b : bool) : op unit
| SetFormData (f : FormState) : op unit
| SetPreviewUrl (u : option string) : op unit
| Navigate (path : string) : op unit.

(** The calls a handler is suspended on until the outside world answers:
    the three awaited promises and the file reader's [onloadend]. *)
Definition is_async {R : Type} (o : op R) : bool :=
  match o with
  | ToastConfirmPrompt _ _ _ _ => true
  | SignAndExecute _ _ => true
  | AxiosPost _ _ _ => true
  | ReadAsDataURL _ => true
  | _ => false
  end.

(** ** Handlers as trees of calls *)
Inductive prog (A : Type) : Type :=
| Ret (a : A)
| Throw (e : JsError)
| Call {R : Type} (o : op R) (k : R -> prog A).
Arguments Ret {A} a.
Arguments Throw {A} e.
Arguments Call {A R} o k.

Fixpoint bind {A B : Type} (p : prog A) (f : A -> prog B) : prog B :=
  match p with
  | Ret a => f a
  | Throw e => Throw e
  | Call o k => Call o (fun r => bind (k r) f)
  end.

(** [try { p } catch (e) { h e }]. *)
Fixpoint try_catch {A : Type} (p : prog A) (h : JsError -> prog A) : prog A :=
  match p with
  | Ret a => Ret a
  | Throw e => h e
  | Call o k => Call o (fun r => try_catch (k r) h)
  end.

(** [try { p } finally { f }]: [f] runs on both exits and the
    completion of [p] stands, unless [f] itself throws. *)
Fixpoint try_finally {A : Type} (p : prog A) (f : prog unit) : prog A :=
  match p with
  | Ret a => bind f (fun _ => Ret a)
  | Throw e => bind f (fun _ => Throw e)
  | Call o k => Call o (fun r => try_finally (k r) f)
  end.

Definition perform {R : Type} (o : op R) : prog R := Call o Ret.

(** [await] on the promise a call returns. *)
Definition await {R : Type} (o : op (Settled R)) : prog R :=
  Call o (fun s =>
    match s with
    | Fulfilled v => Ret v
    | Rejected e => Throw e
    end).

Declare Scope prog_scope.
Delimit Scope prog_scope with prog.
Bind Scope prog_scope with prog.
Notation "x <- p ;; q" := (bind p (fun x => q))
  (at level 61, p at next level, right associativity) : prog_scope.
Notation "p ;; q" := (bind p (fun _ => q))
  (at level 61, right associativity) : prog_scope.
Local Open Scope prog_scope.

(** ** Running a handler against an environment *)

(** An environment answers every call. *)
Definition Env : Type := forall R : Type, op R -> R.

Inductive event : Type :=
| Ev {R : Type} (o : op R).

Definition Trace : Type := list event.

(** The completion of [p] and the calls it made, in order. *)
Fixpoint exec {A : Type} (env : Env) (p : prog A) : Completion A * Trace :=
  match p with
  | Ret a => (Returned a, [])
  | Throw e => (Threw e, [])
  | Call o k =>
      let (c, t) := exec env (k (env _ o)) in (c, Ev o :: t)
  end.

Definition completion {A : Type} (env : Env) (p : prog A) : Completion A :=
  fst (exec env p).

Definition trace {A : Type} (env : Env) (p : prog A) : Trace :=
  snd (exec env p).

(** Classifiers of trace entries. *)
Definition is_sign (e : event) : bool :=
  match e with Ev (SignAndExecute _ _) => true | _ => false end.

Definition is_post (e : event) : bool :=
  match e with Ev (AxiosPost _ _ _) => true | _ => false end.

Definition is_prompt (e : event) : bool :=
  match e with Ev (ToastConfirmPrompt _ _ _ _) => true | _ => false end.

Definition is_navigate (path : string) (e : event) : bool :=
  match e with Ev (Navigate p) => String.eqb p path | _ => false end.

Definition is_toast_error (e : event) : bool :=
  match e with Ev (ToastError _) => true | _ => false end.

Definition is_state_update (e : event) : bool :=
  match e with
  | Ev (SetLoading _) | Ev (SetFormData _) | Ev (SetPreviewUrl _) => true
  | _ => false
  end.

Definition count (f : event -> bool) (t : Trace) : nat :=
  List.length (filter f t).

(** ** React state of the page component *)
Record CompState : Type := {
  loading : bool;
  formData : FormState;
  previewUrl : option string
}.

(** The state on mount (the three [useState] initial values). *)
Definition initialState : CompState :=
  {| loading := false; formData := initialFormData; previewUrl := None |}.

(** What a call does to the component state: only the setters act. *)
Definition apply_op {R : Type} (o : op R) (st : CompState) : CompState :=
  match o with
  | SetLoading b =>
      {| loading := b; formData := formData st; previewUrl := previewUrl st |}
  | SetFormData f =>
      {| loading := loading st; formData := f; previewUrl := previewUrl st |}
  | SetPreviewUrl u =>
      {| loading := loading st; formData := formData st; previewUrl := u |}
  | _ => st
  end.

Definition apply_event (st : CompState) (e : event) : CompState :=
  match e with Ev o => apply_op o st end.

(** The component state after the calls of a trace. *)
Definition final_state (st : CompState) (t : Trace) : CompState :=
  fold_left apply_event t st.

(** ** src/utils/suiTransfer.js *)
Module SuiTransfer.

(** The receiver of the first copy of the function in the file; the
    second copy differs from the first in this literal only
    (0x564e18f3...1e2649). *)
Definition FUND_RECEIVER_ADDRESS : string :=
  "0xc4000ea0fd3244857575799ef4f8164c7b42d1c5bf840cfd54030f608b07556d".

(** [BigInt(1_000_000_000)]. *)
Definition SUI_AMOUNT : Z := 1000000000.

(** The [catch] block of [handleSuiPayment]. *)
Definition classify (error : JsError) : prog Receipt :=
  perform (ConsoleError "Payment error:" error) ;;
  if message_lower_includes error "insufficient"
  then Throw (new_Error "Insufficient SUI balance")
  else if message_lower_includes error "reject"
  then Throw (new_Error "User rejected the transaction")
  else Throw error.

(** The transaction the [try] block builds before it calls the signer. *)
Definition payment_txb : TransactionBlock :=
  let txb := TransactionBlock_new in
  let (coins, txb) := splitCoins txb GasCoin [PureU64 SUI_AMOUNT] in
  let coin := hd GasCoin coins in
  transferObjects txb [coin] (PureString FUND_RECEIVER_ADDRESS).

Definition sign_request : SignRequest :=
  {| transactionBlock := payment_txb;
     options := {| showEvents := true |} |}.

Definition handleSuiPayment
    (signAndExecuteTransactionBlock : option Signer) : prog Receipt :=
  match signAndExecuteTransactionBlock with
  | None => Throw (new_Error "Wallet not connected")
  | Some sign =>
      try_catch
        (response <- await (SignAndExecute sign sign_request) ;;
         Ret {| digest := resp_digest response;
                status := "success";
                amount := SUI_AMOUNT;
                receiver := FUND_RECEIVER_ADDRESS |})
        classify
  end.

End SuiTransfer.

(** ** src/Pages/AgentPage.jsx *)
Module AgentPage.
Import SuiTransfer.

(** What a handler closes over at the render it belongs to: the three
    values of [useWallet()] and the [formData] of that render. *)
Record Props : Type := {
  signAndExecuteTransactionBlock : option Signer;
  connected : bool;
  account : option Account;
  props_formData : FormState
}.

(** [5 * 1024 * 1024]. *)
Definition MAX_IMAGE_SIZE : N := 5 * 1024 * 1024.

(** [handleImageUpload], on [e.target.files[0]] (absent when the picker
    was left without a choice).  The reader's [onloadend] stores
    [reader.result], which is [null] when the read failed. *)
Definition handleImageUpload (formData : FormState) (file : option File)
    : prog unit :=
  match file with
  | None => Ret tt
  | Some file =>
      if (MAX_IMAGE_SIZE <? size file)%N
      then perform (ToastError "Image size should be less than 5MB")
      else if negb (JsString.startsWith (type file) "image/")
      then perform (ToastError "Please upload an image file")
      else
        perform (SetFormData
                   {| name := name formData;
                      twitter := twitter formData;
                      website := website formData;
                      description := description formData;
                      profilePicture := Some file |}) ;;
        result <- perform (ReadAsDataURL file) ;;
        perform (SetPreviewUrl result)
  end.

(** The promise behind the confirmation prompt: the Confirm button
    resolves it with [true], the Cancel button rejects it. *)
Definition confirm_prompt : op Choice :=
  ToastConfirmPrompt
    "Please confirm payment of 1 SUI to submit proposal"
    "Awaiting confirmation..."
    "Payment confirmed!"
    "Payment cancelled".

Definition confirmation : prog bool :=
  choice <- perform confirm_prompt ;;
  match choice with
  | Confirm => Ret true
  | Cancel => Throw (new_Error "Payment cancelled")
  end.

(** [account.address]. *)
Definition account_address (account : option Account) : prog string :=
  match account with
  | Some a => Ret (address a)
  | None =>
      Throw (TypeError "Cannot read properties of undefined (reading 'address')")
  end.

(** The [FormData] of lines 120-129. *)
Definition build_submitData (formData : FormState) (creator_wallet : string)
    (payment_tx : string) : FormData :=
  let submitData : FormData := [] in
  let submitData := append submitData "name" (TextField (name formData)) in
  let submitData := append submitData "twitter" (TextField (twitter formData)) in
  let submitData := append submitData "website" (TextField (website formData)) in
  let submitData :=
    append submitData "description" (TextField (description formData)) in
  let submitData := append submitData "creator_wallet" (TextField creator_wallet) in
  let submitData := append submitData "payment_tx" (TextField payment_tx) in
  match profilePicture formData with
  | Some picture => append submitData "profilePicture" (FileField picture)
  | None => submitData
  end.

(** The [catch] block of [handleSubmit]. *)
Definition report (error : JsError) : prog unit :=
  perform (ConsoleError "Error:" error) ;;
  if message_includes error "Payment cancelled"
  then perform (ToastError "Payment cancelled by user")
  else if message_includes error "User rejected"
  then perform (ToastError "Transaction rejected by user")
  else if message_includes error "Insufficient"
  then perform (ToastError "Insufficient SUI balance")
  else
    perform (ToastError
               match err_message error with
               | Some m =>
                   if JsString.falsy m
                   then "Transaction failed. Please try again."
                   else m
               | None => "Transaction failed. Please try again."
               end).

Section Workflow.

(** The backend base URL, imported from the configuration module. *)
Variable BACKEND_URL : string.

(** The [axios.post] call of lines 131-135. *)
Definition post_request (submitData : FormData)
    : op (Settled HttpResponse) :=
  AxiosPost (BACKEND_URL ++ "/api/proposals")%string submitData
    [("Content-Type", "multipart/form-data")].

(** The branch guarded by [paymentResult.status === "success"]. *)
Definition submitProposal (p : Props) (paymentResult : Receipt)
    (paymentToastId : ToastId) : prog unit :=
  perform (ToastSuccess "Payment successful!" (Some paymentToastId)) ;;
  submitToastId <- perform (ToastLoading "Submitting proposal...") ;;
  creator_wallet <- account_address (account p) ;;
  let submitData :=
    build_submitData (props_formData p) creator_wallet
      (digest paymentResult) in
  response <- await (post_request submitData) ;;
  perform (ToastSuccess "Proposal submitted successfully!"
             (Some submitToastId)) ;;
  perform (SetFormData
             {| name := ""; twitter := ""; website := "";
                description := ""; profilePicture := None |}) ;;
  perform (SetPreviewUrl None) ;;
  perform (Navigate "/").

(** Lines 114-150: what follows the return of the payment. *)
Definition afterPayment (p : Props) (paymentResult : Receipt)
    (paymentToastId : ToastId) : prog unit :=
  if String.eqb (status paymentResult) "success"
  then submitProposal p paymentResult paymentToastId
  else Ret tt.

(** The [try] block of [handleSubmit]. *)
Definition attempt (p : Props) : prog unit :=
  confirmPayment <- confirmation ;;
  if negb confirmPayment then Ret tt
  else
    paymentToastId <- perform (ToastLoading "Processing payment...") ;;
    paymentResult <- handleSuiPayment (signAndExecuteTransactionBlock p) ;;
    afterPayment p paymentResult paymentToastId.

Definition handleSubmit (p : Props) : prog unit :=
  perform PreventDefault ;;
  if negb (connected p) ||
     match account p with Some _ => false | None => true end
  then perform (ToastError "Please connect your wallet first!")
  else if match signAndExecuteTransactionBlock p with
          | Some _ => false
          | None => true
          end
  then perform (ToastError "Wallet connection not initialized properly")
  else if JsString.falsy (name (props_formData p))
          || JsString.falsy (twitter (props_formData p))
          || JsString.falsy (description (props_formData p))
  then perform (ToastError
         "Please fill in all required fields (Name, Twitter, Description)")
  else
    perform (SetLoading true) ;;
    try_finally (try_catch (attempt p) report) (perform (SetLoading false)).

End Workflow.

(** The submit button's [disabled={loading || !connected}]. *)
Definition submit_disabled (loading connected : bool) : bool :=
  loading || negb connected.

End AgentPage.

(** ** Vocabulary of the properties *)

(** The error's message contains [word] in any letter case. *)
Definition mentions (error : JsError) (word : string) : Prop :=
  exists m, err_message error = Some m /\ JsString.contains_any_case m word.

(** The three required fields of the draft are filled in. *)
Definition required_fields_filled (f : FormState) : Prop :=
  name f <> "" /\ twitter f <> "" /\ description f <> "".

(** The file may be attached: at most 5 MiB, and a MIME type that begins
    with "image/". *)
Definition acceptable_image (file : File) : Prop :=
  (size file <= 5 * 1024 * 1024)%N
  /\ exists rest, type file = ("image/" ++ rest)%string.

(** The three messages with which [handleSubmit] refuses to start. *)
Definition validation_messages : list string :=
  ["Please connect your wallet first!";
   "Wallet connection not initialized properly";
   "Please fill in all required fields (Name, Twitter, Description)"].

(** An environment scripted by the answers of the outside world: the
    button clicked at the prompt, how the wallet and the backend settle,
    and what the file reader yields.  Notification ids are the messages
    they were created with. *)
Definition scripted (choice : Choice) (signed : Settled SignResponse)
    (posted : Settled HttpResponse) (read : option string) : Env :=
  fun R o =>
    match o in op R return R with
    | PreventDefault => tt
    | ConsoleError _ _ => tt
    | ToastError _ => tt
    | ToastLoading msg => msg
    | ToastSuccess _ _ => tt
    | ToastConfirmPrompt _ _ _ _ => choice
    | SignAndExecute _ _ => signed
    | AxiosPost _ _ _ => posted
    | ReadAsDataURL _ => read
    | SetLoading _ => tt
    | SetFormData _ => tt
    | SetPreviewUrl _ => tt
    | Navigate _ => tt
    end.

(** ** A worked attempt

    The draft, wallet answer and backend answer of the example run: draft
    [{name: "Bot", handle: "@bot", website: "", description: "desc",
    image: null}], digest "0xabc", backend status 200. *)
Definition example_form : FormState :=
  {| name := "Bot"; twitter := "@bot"; website := "";
     description := "desc"; profilePicture := None |}.

Definition example_account : Account := {| address := "0x7e57" |}.

Definition example_signer : Signer := WalletSigner 0.

Definition example_props : AgentPage.Props :=
  {| AgentPage.signAndExecuteTransactionBlock := Some example_signer;
     AgentPage.connected := true;
     AgentPage.account := Some example_account;
     AgentPage.props_formData := example_form |}.

Definition example_response : SignResponse :=
  {| resp_digest := "0xabc"; resp_events := None |}.

Definition example_ack : HttpResponse :=
  {| http_status := 200; http_data := "" |}.

Definition example_backend : string := "http://localhost:5000".

Definition example_image : File :=
  {| file_name := "bot.png"; size := 20480; type := "image/png" |}.

(** The example run itself, and three runs that go wrong: Cancel at the
    prompt, a wallet that rejects, a backend that cannot be reached. *)
Definition example_env : Env :=
  scripted Confirm (Fulfilled example_response) (Fulfilled example_ack) None.

Definition example_env_cancel : Env :=
  scripted Cancel (Fulfilled example_response) (Fulfilled example_ack) None.

Definition example_wallet_error : JsError :=
  {| err_name := "WalletError";
     err_message := Some "User REJECTED the request" |}.

Definition example_env_rejected : Env :=
  scripted Confirm (Rejected example_wallet_error) (Fulfilled example_ack) None.

Definition example_network_error : JsError :=
  {| err_name := "AxiosError"; err_message := Some "Network Error" |}.

Definition example_env_offline : Env :=
  scripted Confirm (Fulfilled example_response)
    (Rejected example_network_error) None.

(** The same wallet with the form still empty. *)
Definition example_blank_props : AgentPage.Props :=
  {| AgentPage.signAndExecuteTransactionBlock := Some example_signer;
     AgentPage.connected := true;
     AgentPage.account := Some example_account;
     AgentPage.props_formData := initialFormData |}.

(** The receipt of the example run. *)
Definition example_receipt : Receipt :=
  {| digest := "0xabc";
     status := "success";
     amount := 1000000000;
     receiver := SuiTransfer.FUND_RECEIVER_ADDRESS |}.

(** ** One mounted page under the event loop

    A handler runs without interruption up to its next awaited call (run
    to completion), and the state it set by then is what the next event
    sees.  A page holds the component state, the wallet values of
    [useWallet()], and the handler instances that are suspended on an
    awaited call. *)
Module EventLoop.
Import AgentPage.

Record Page : Type := {
  comp : CompState;
  wallet : Props;
  submissions : list (prog unit);
  uploads : list (prog unit)
}.

(** The page on mount. *)
Definition mount (w : Props) : Page :=
  {| comp := initialState; wallet := w; submissions := []; uploads := [] |}.

(** The closure values of the current render. *)
Definition props_of (pg : Page) : Props :=
  {| signAndExecuteTransactionBlock :=
       signAndExecuteTransactionBlock (wallet pg);
     connected := connected (wallet pg);
     account := account (wallet pg);
     props_formData := formData (comp pg) |}.

(** Runs [p] up to its next awaited call: the state reached and, when
    [p] is not over, what is left of it.  [env] answers the calls that
    return at once. *)
Fixpoint advance (env : Env) (p : prog unit) (st : CompState)
    : CompState * option (prog unit) :=
  match p with
  | Ret _ => (st, None)
  | Throw _ => (st, None)
  | Call o k =>
      if is_async o then (st, Some (Call o k))
      else advance env (k (env _ o)) (apply_op o st)
  end.

Definition suspended (s : option (prog unit)) : list (prog unit) :=
  match s with
  | Some p => [p]
  | None => []
  end.

Definition submit_enabled (pg : Page) : Prop :=
  submit_disabled (loading (comp pg)) (connected (wallet pg)) = false.

Section Steps.

Variable BACKEND_URL : string.

Inductive step : Page -> Page -> Prop :=
(* the form is submitted: only while the button is not disabled *)
| step_submit (env : Env) (pg : Page) st s :
    submit_enabled pg ->
    advance env (handleSubmit BACKEND_URL (props_of pg)) (comp pg) = (st, s) ->
    step pg {| comp := st; wallet := wallet pg;
               submissions := submissions pg ++ suspended s;
               uploads := uploads pg |}
(* an awaited call of a submission is answered *)
| step_settle (env : Env) (pg : Page) l1 l2 R (o : op R) k (r : R) st s :
    is_async o = true ->
    submissions pg = l1 ++ Call o k :: l2 ->
    advance env (k r) (comp pg) = (st, s) ->
    step pg {| comp := st; wallet := wallet pg;
               submissions := l1 ++ suspended s ++ l2;
               uploads := uploads pg |}
(* a file is picked *)
| step_upload (env : Env) (pg : Page) file st s :
    advance env (handleImageUpload (formData (comp pg)) file) (comp pg)
      = (st, s) ->
    step pg {| comp := st; wallet := wallet pg;
               submissions := submissions pg;
               uploads := uploads pg ++ suspended s |}
(* a file has been read *)
| step_loaded (env : Env) (pg : Page) l1 l2 R (o : op R) k (r : R) st s :
    is_async o = true ->
    uploads pg = l1 ++ Call o k :: l2 ->
    advance env (k r) (comp pg) = (st, s) ->
    step pg {| comp := st; wallet := wallet pg;
               submissions := submissions pg;
               uploads := l1 ++ suspended s ++ l2 |}
(* a text field is edited: [setFormData({...formData, field: value})] *)
| step_edit (pg : Page) (f : FormState) :
    profilePicture f = profilePicture (formData (comp pg)) ->
    step pg {| comp := apply_op (SetFormData f) (comp pg);
               wallet := wallet pg;
               submissions := submissions pg;
               uploads := uploads pg |}
(* the wallet connects, disconnects or changes account *)
| step_wallet (pg : Page) (w : Props) :
    step pg {| comp := comp pg; wallet := w;
               submissions := submissions pg;
               uploads := uploads pg |}.

Inductive reachable (w : Props) : Page -> Prop :=
| reachable_mount : reachable w (mount w)
| reachable_step pg pg' : reachable w pg -> step pg pg' -> reachable w pg'.

End Steps.

(** The loading flag after a call, from the flag before it. *)
Definition loading_after {R : Type} (o : op R) (l : bool) : bool :=
  match o with
  | SetLoading b => b
  | _ => l
  end.

(** [p] never calls [setLoading]. *)
Fixpoint quiet {A : Type} (p : prog A) : Prop :=
  match p with
  | Ret _ => True
  | Throw _ => True
  | Call o k => (forall l, loading_after o l = l) /\ forall r, quiet (k r)
  end.

(** From loading flag [l], [p] is suspended only with the flag up and
    ends only with the flag down. *)
Fixpoint guarded {A : Type} (l : bool) (p : prog A) : Prop :=
  match p with
  | Ret _ => l = false
  | Throw _ => l = false
  | Call o k =>
      (is_async o = true -> l = true)
      /\ forall r, guarded (loading_after o l) (k r)
  end.

(** What holds of every page the event loop reaches: suspended uploads
    never touch the loading flag, and either no submission is in flight
    and the flag is down, or exactly one is and the flag is up. *)
Definition page_invariant (pg : Page) : Prop :=
  Forall (fun q => quiet q) (uploads pg)
  /\ ((submissions pg = [] /\ loading (comp pg) = false)
      \/ exists q, submissions pg = [q] /\ loading (comp pg) = true
                   /\ guarded true q).

(** The filled-in page of the worked attempt, and the same page once the
    form has been submitted and the handler waits at the prompt. *)
Definition example_filled : Page :=
  {| comp := apply_op (SetFormData example_form) initialState;
     wallet := example_props;
     submissions := [];
     uploads := [] |}.

Definition example_waiting : Page :=
  let run :=
    advance example_env
      (handleSubmit example_backend (props_of example_filled))
      (comp example_filled) in
  {| comp := fst run;
     wallet := wallet example_filled;
     submissions := submissions example_filled ++ suspended (snd run);
     uploads := uploads example_filled |}.

End EventLoop.

(** ** The second copy of src/utils/suiTransfer.js (lines 43-84) *)
Module SuiTransferCopy.

Definition FUND_RECEIVER_ADDRESS : string :=
  "0x564e18f3d2a1051b66562ecda8744601ab83ac187307625ba59981e11c1e2649".

(** [BigInt(1_000_000_000)], 1 SUI in MIST. *)
Definition SUI_AMOUNT : Z := 1000000000.

Definition classify (error : JsError) : prog Receipt :=
  perform (ConsoleError "Payment error:" error) ;;
  if message_lower_includes error "insufficient"
  then Throw (new_Error "Insufficient SUI balance")
  else if message_lower_includes error "reject"
  then Throw (new_Error "User rejected the transaction")
  else Throw error.

Definition payment_txb : TransactionBlock :=
  let txb := TransactionBlock_new in
  let (coins, txb) := splitCoins txb GasCoin [PureU64 SUI_AMOUNT] in
  let coin := hd GasCoin coins in
  transferObjects txb [coin] (PureString FUND_RECEIVER_ADDRESS).

Definition sign_request : SignRequest :=
  {| transactionBlock := payment_txb;
     options := {| showEvents := true |} |}.

Definition handleSuiPayment
    (signAndExecuteTransactionBlock : option Signer) : prog Receipt :=
  match signAndExecuteTransactionBlock with
  | None => Throw (new_Error "Wallet not connected")
  | Some sign =>
      try_catch
        (response <- await (SignAndExecute sign sign_request) ;;
         Ret {| digest := resp_digest response;
                status := "success";
                amount := SUI_AMOUNT;
                receiver := FUND_RECEIVER_ADDRESS |})
        classify
  end.

End SuiTransferCopy.

(** ** What the page renders from its state *)
Module AgentPageView.

(** The label of the submit button (line 247). *)
Definition submit_label (loading : bool) : string :=
  if loading then "Processing..." else "Submit Proposal (1 SUI)".

End AgentPageView.

(** ** Further vocabulary *)

Definition is_console (e : event) : bool :=
  match e with Ev (ConsoleError _ _) => true | _ => false end.



(** The messages of the error notifications of a trace, in order. *)
Definition toast_errors (t : Trace) : list string :=
  flat_map (fun e => match e with Ev (ToastError msg) => [msg] | _ => [] end) t.

(** The message [handleSubmit] shows when nothing better is known. *)
Definition fallback_message : string :=
  "Transaction failed. Please try again.".

(** The guards of [handleSubmit] let these closure values through. *)
Definition accepted (p : AgentPage.Props) : Prop :=
  AgentPage.connected p = true
  /\ AgentPage.account p <> None
  /\ AgentPage.signAndExecuteTransactionBlock p <> None
  /\ required_fields_filled (AgentPage.props_formData p).

(** The picture attached to a form, if any, may be attached. *)
Definition picture_ok (f : FormState) : Prop :=
  forall file, profilePicture f = Some file -> acceptable_image file.

(** Every form that [p] may still store has an acceptable picture. *)
Fixpoint stores_ok_pictures {A : Type} (p : prog A) : Prop :=
  match p with
  | Ret _ => True
  | Throw _ => True
  | Call o k =>
      match o with
      | SetFormData f => picture_ok f
      | _ => True
      end
      /\ forall r, stores_ok_pictures (k r)
  end.

(** The keys of a multipart body, in order. *)
Definition keys (d : FormData) : list string := map fst d.

(** A file that is too large, and one that is no image. *)
Definition example_large_file : File :=
  {| file_name := "poster.png"; size := 6291456; type := "image/png" |}.

Definition example_text_file : File :=
  {| file_name := "notes.txt"; size := 120; type := "text/plain" |}.

(** The page just after the example image was picked on mount, while
    the file is being read. *)
Definition example_uploading : EventLoop.Page :=
  let pg := EventLoop.mount example_props in
  let run :=
    EventLoop.advance example_env
      (AgentPage.handleImageUpload (formData (EventLoop.comp pg))
         (Some example_image))
      (EventLoop.comp pg) in
  {| EventLoop.comp := fst run;
     EventLoop.wallet := EventLoop.wallet pg;
     EventLoop.submissions := EventLoop.submissions pg;
     EventLoop.uploads := EventLoop.uploads pg ++ EventLoop.suspended (snd run) |}.

(** Runs where the wallet reports a low balance, and where it fails
    without a reason. *)
Definition example_balance_error : JsError :=
  {| err_name := "WalletError";
     err_message := Some "InsufficientCoinBalance in command 0" |}.

Definition example_env_poor : Env :=
  scripted Confirm (Rejected example_balance_error) (Fulfilled example_ack) None.

Definition example_silent_error : JsError :=
  {| err_name := "WalletError"; err_message := None |}.

Definition example_env_silent : Env :=
  scripted Confirm (Rejected example_silent_error) (Fulfilled example_ack) None.

(** * Properties *)

(** ** Strings: [includes] and [toLowerCase] against their reading *)
Module JsStringFacts.
Import JsString.

Lemma prefix_split (p s : string) :
  String.prefix p s = true <-> exists post, s = (p ++ post)%string.
Proof.
  revert s; induction p as [|a p IH]; intros s; simpl.
  - split; [intros _; exists s; reflexivity | intros _; now destruct s].
  - destruct s as [|c s].
    + split; [discriminate | intros [post H]; discriminate].
    + simpl. destruct (Ascii.ascii_dec a c) as [->|Hne].
      * rewrite IH. split; intros [post H]; exists post.
        -- now rewrite H.
        -- now injection H.
      * split; [discriminate | intros [post H]; injection H; congruence].
Qed.

Lemma includes_split (s p : string) :
  includes s p = true <-> exists pre post, s = (pre ++ p ++ post)%string.
Proof.
  induction s as [|c s IH]; cbn [includes].
  - rewrite orb_false_r, prefix_split. split.
    + intros [post H]. exists EmptyString, post. exact H.
    + intros [[|a pre] [post H]]; [exists post; exact H | discriminate].
  - rewrite orb_true_iff, IH, prefix_split. split.
    + intros [[post H] | [pre [post H]]].
      * exists EmptyString, post. exact H.
      * exists (String c pre), post. simpl. now rewrite H.
    + intros [[|a pre] [post H]].
      * left. exists post. exact H.
      * right. exists pre, post. simpl in H. now injection H.
Qed.

Lemma toLowerCase_app (a b : string) :
  toLowerCase (a ++ b) = (toLowerCase a ++ toLowerCase b)%string.
Proof. induction a as [|c a IH]; simpl; [reflexivity | now rewrite IH]. Qed.

Lemma toLowerCase_unapp (s a b : string) :
  toLowerCase s = (a ++ b)%string ->
  exists s1 s2, s = (s1 ++ s2)%string
                /\ toLowerCase s1 = a /\ toLowerCase s2 = b.
Proof.
  revert s; induction a as [|x a IH]; intros s H; simpl in H.
  - exists EmptyString, s. auto.
  - destruct s as [|c s]; [discriminate|]. simpl in H.
    injection H as Hc Hs. destruct (IH _ Hs) as (s1 & s2 & -> & H1 & H2).
    exists (String c s1), s2. simpl. now rewrite Hc, H1.
Qed.

Lemma N_of_ascii_bound (c : ascii) : (N_of_ascii c < 256)%N.
Proof.
  destruct c as [[] [] [] [] [] [] [] []]; vm_compute; reflexivity.
Qed.

Lemma N_of_lower_unit (c : ascii) :
  N_of_ascii (lower_unit c) =
  (let n := N_of_ascii c in
   if ((65 <=? n) && (n <=? 90)
       || (192 <=? n) && (n <=? 222) && negb (n =? 215))%N
   then n + 32 else n)%N.
Proof.
  unfold lower_unit. cbv zeta.
  pose proof (N_of_ascii_bound c) as Hb.
  destruct ((65 <=? N_of_ascii c) && (N_of_ascii c <=? 90)
            || (192 <=? N_of_ascii c) && (N_of_ascii c <=? 222)
               && negb (N_of_ascii c =? 215))%N eqn:E; [|reflexivity].
  apply N_ascii_embedding.
  rewrite orb_true_iff, !andb_true_iff, !N.leb_le in E. lia.
Qed.

Lemma lower_unit_any_case (a c : ascii) :
  (97 <= N_of_ascii a <= 122)%N ->
  lower_unit c = a <-> unit_any_case a c.
Proof.
  intros Ha. unfold unit_any_case.
  assert (Hinj : forall x y, N_of_ascii x = N_of_ascii y <-> x = y).
  { intros x y; split; [|now intros ->].
    intros H. rewrite <- (ascii_N_embedding x), <- (ascii_N_embedding y).
    now rewrite H. }
  rewrite <- (Hinj (lower_unit c) a), <- (Hinj c a), N_of_lower_unit.
  cbv zeta. pose proof (N_of_ascii_bound c) as Hb.
  destruct ((65 <=? N_of_ascii c) && (N_of_ascii c <=? 90)
            || (192 <=? N_of_ascii c) && (N_of_ascii c <=? 222)
               && negb (N_of_ascii c =? 215))%N eqn:E.
  - rewrite orb_true_iff, !andb_true_iff, !N.leb_le in E. lia.
  - rewrite orb_false_iff, !andb_false_iff, !N.leb_gt in E. lia.
Qed.

Lemma toLowerCase_any_case (p s : string) :
  small_letters p = true ->
  toLowerCase s = p <-> any_case p s.
Proof.
  revert s; induction p as [|a p IH]; intros s Hp; destruct s as [|c s];
    simpl; try (split; [discriminate | contradiction]).
  - split; auto.
  - simpl in Hp. rewrite !andb_true_iff, !N.leb_le in Hp.
    destruct Hp as [Ha Hp].
    rewrite <- (IH s Hp), <- (lower_unit_any_case a c) by lia.
    split; [intros H; injection H; auto | intros [-> ->]; reflexivity].
Qed.

(** Looking for a word of small letters in the lower-cased string is
    looking for the word in any letter case. *)
Lemma includes_lower_any_case (s p : string) :
  small_letters p = true ->
  includes (toLowerCase s) p = true <-> contains_any_case s p.
Proof.
  intros Hp. rewrite includes_split. unfold contains_any_case. split.
  - intros (pre & post & H).
    apply toLowerCase_unapp in H as (s1 & s23 & -> & H1 & H23).
    apply toLowerCase_unapp in H23 as (s2 & s3 & -> & H2 & H3).
    exists s1, s2, s3. split; [reflexivity|].
    now apply toLowerCase_any_case.
  - intros (pre & mid & post & -> & H).
    apply toLowerCase_any_case in H; [|exact Hp].
    exists (toLowerCase pre), (toLowerCase post).
    now rewrite !toLowerCase_app, H.
Qed.

End JsStringFacts.

(** ** Running composed handlers *)
Section ExecFacts.

Variable env : Env.

Lemma exec_bind {A B : Type} (p : prog A) (f : A -> prog B) :
  exec env (bind p f) =
  match exec env p with
  | (Returned a, t) => let (c, t') := exec env (f a) in (c, t ++ t')
  | (Threw e, t) => (Threw e, t)
  end.
Proof.
  induction p as [a|e|R o k IH]; simpl.
  - destruct (exec env (f a)); reflexivity.
  - reflexivity.
  - rewrite IH. destruct (exec env (k (env R o))) as [[a|e] t].
    + destruct (exec env (f a)); reflexivity.
    + reflexivity.
Qed.

Lemma exec_try_catch {A : Type} (p : prog A) (h : JsError -> prog A) :
  exec env (try_catch p h) =
  match exec env p with
  | (Returned a, t) => (Returned a, t)
  | (Threw e, t) => let (c, t') := exec env (h e) in (c, t ++ t')
  end.
Proof.
  induction p as [a|e|R o k IH]; simpl.
  - reflexivity.
  - destruct (exec env (h e)); reflexivity.
  - rewrite IH. destruct (exec env (k (env R o))) as [[a|e] t].
    + reflexivity.
    + destruct (exec env (h e)); reflexivity.
Qed.

Lemma exec_try_finally {A : Type} (p : prog A) (f : prog unit) :
  exec env (try_finally p f) =
  let (c, t) := exec env p in
  match exec env f with
  | (Returned _, tf) => (c, t ++ tf)
  | (Threw e, tf) => (Threw e, t ++ tf)
  end.
Proof.
  induction p as [a|e|R o k IH]; simpl.
  - rewrite exec_bind. destruct (exec env f) as [[u|e] t]; simpl;
      rewrite ?app_nil_r; reflexivity.
  - rewrite exec_bind. destruct (exec env f) as [[u|e'] t]; simpl;
      rewrite ?app_nil_r; reflexivity.
  - rewrite IH. destruct (exec env (k (env R o))) as [c t].
    destruct (exec env f) as [[u|e] tf]; reflexivity.
Qed.

End ExecFacts.

(** ** The payment initiator *)
Module SuiTransferFacts.
Import SuiTransfer.

(** The transaction that is signed: split 1,000,000,000 off the gas coin
    and transfer the split coin to the receiver. *)
Example payment_txb_commands :
  payment_txb
  = [SplitCoins GasCoin [PureU64 1000000000];
     TransferObjects [NestedResult 0 0] (PureString FUND_RECEIVER_ADDRESS)].
Proof. reflexivity. Qed.

(** The two ways a call with a signer runs: one signing call, and on
    its rejection the [catch] block. *)
Lemma exec_handleSuiPayment (env : Env) (sign : Signer) :
  exec env (handleSuiPayment (Some sign)) =
  match env _ (SignAndExecute sign sign_request) with
  | Fulfilled response =>
      (Returned {| digest := resp_digest response;
                   status := "success";
                   amount := SUI_AMOUNT;
                   receiver := FUND_RECEIVER_ADDRESS |},
       [Ev (SignAndExecute sign sign_request)])
  | Rejected error =>
      (Threw (if message_lower_includes error "insufficient"
              then new_Error "Insufficient SUI balance"
              else if message_lower_includes error "reject"
              then new_Error "User rejected the transaction"
              else error),
       [Ev (SignAndExecute sign sign_request);
        Ev (ConsoleError "Payment error:" error)])
  end.
Proof.
  unfold handleSuiPayment, await. cbn [bind try_catch exec].
  destruct (env _ (SignAndExecute sign sign_request)) as [response|error].
  - reflexivity.
  - cbn [bind try_catch exec classify perform].
    destruct (message_lower_includes error "insufficient");
      [reflexivity|].
    destruct (message_lower_includes error "reject"); reflexivity.
Qed.

Lemma exec_handleSuiPayment_none (env : Env) :
  exec env (handleSuiPayment None) =
  (Threw (new_Error "Wallet not connected"), []).
Proof. reflexivity. Qed.

Lemma mentions_lower_includes (error : JsError) (word : string) :
  JsString.small_letters word = true ->
  message_lower_includes error word = true <-> mentions error word.
Proof.
  intros Hw. unfold message_lower_includes, mentions.
  destruct (err_message error) as [m|].
  - rewrite (JsStringFacts.includes_lower_any_case m word Hw). split.
    + intros H. exists m. split; [reflexivity | exact H].
    + intros (m' & Hm & H). now injection Hm as ->.
  - split; [discriminate | intros (m & Hm & _); discriminate].
Qed.

(** At most one signing call is made, whatever happens. *)
Lemma handleSuiPayment_signs_once (env : Env) (signer : option Signer) :
  count is_sign (trace env (handleSuiPayment signer)) <= 1.
Proof.
  unfold trace. destruct signer as [sign|].
  - rewrite exec_handleSuiPayment.
    destruct (env _ (SignAndExecute sign sign_request)); cbn; lia.
  - cbn. lia.
Qed.

(** C2: when the signing call rejects with [error], the payment fails
    with "Insufficient SUI balance" if the message of [error] contains
    "insufficient" in any letter case; otherwise with "User rejected the
    transaction" if it contains "reject" in any letter case; otherwise
    [error] itself is thrown again, unchanged.  The first test wins
    over the second. *)
Theorem handleSuiPayment_classifies
    (env : Env) (sign : Signer) (error : JsError) :
  env _ (SignAndExecute sign sign_request) = Rejected error ->
  (mentions error "insufficient" ->
     completion env (handleSuiPayment (Some sign))
     = Threw (new_Error "Insufficient SUI balance"))
  /\ (~ mentions error "insufficient" -> mentions error "reject" ->
     completion env (handleSuiPayment (Some sign))
     = Threw (new_Error "User rejected the transaction"))
  /\ (~ mentions error "insufficient" -> ~ mentions error "reject" ->
     completion env (handleSuiPayment (Some sign)) = Threw error).
Proof.
  intros Henv. unfold completion.
  rewrite exec_handleSuiPayment, Henv. cbn [fst].
  pose proof (mentions_lower_includes error "insufficient" eq_refl) as Hi.
  pose proof (mentions_lower_includes error "reject" eq_refl) as Hr.
  destruct (message_lower_includes error "insufficient").
  - split; [reflexivity|].
    split; intros Hn; exfalso; apply Hn, Hi; reflexivity.
  - assert (Hni : ~ mentions error "insufficient").
    { intros H. apply Hi in H. discriminate. }
    split; [intros H; contradiction|].
    destruct (message_lower_includes error "reject").
    + split; [reflexivity|].
      intros _ Hn. exfalso. apply Hn, Hr. reflexivity.
    + split; [|reflexivity].
      intros _ H. apply Hr in H. discriminate.
Qed.

(** A payment returns only from a fulfilled signing call, and then with
    status "success". *)
Lemma handleSuiPayment_returns
    (env : Env) (signer : option Signer) (r : Receipt) :
  completion env (handleSuiPayment signer) = Returned r ->
  exists sign response,
    signer = Some sign
    /\ env _ (SignAndExecute sign sign_request) = Fulfilled response
    /\ r = {| digest := resp_digest response;
              status := "success";
              amount := SUI_AMOUNT;
              receiver := FUND_RECEIVER_ADDRESS |}.
Proof.
  unfold completion. destruct signer as [sign|]; [|discriminate].
  rewrite exec_handleSuiPayment.
  destruct (env _ (SignAndExecute sign sign_request)) as [response|error] eqn:E;
    cbn [fst]; [|discriminate].
  intros H. injection H as <-. exists sign, response. auto.
Qed.

(** C8: a payment that returns made exactly one call, the signing call
    with event visibility requested, and its receipt carries the digest
    of the wallet's response, the amount 1,000,000,000 and the receiver
    constant.  And there is no retry in any run: with a signer the
    signing calls of the trace are that one call, whether the wallet
    fulfils or rejects it, and without a signer there is none. *)
Theorem handleSuiPayment_receipt (env : Env) (signer : option Signer) :
  (forall r,
     completion env (handleSuiPayment signer) = Returned r ->
     exists sign response,
       signer = Some sign
       /\ env _ (SignAndExecute sign sign_request) = Fulfilled response
       /\ digest r = resp_digest response
       /\ amount r = 1000000000%Z
       /\ receiver r = FUND_RECEIVER_ADDRESS
       /\ trace env (handleSuiPayment signer)
          = [Ev (SignAndExecute sign sign_request)]
       /\ showEvents (options sign_request) = true
       /\ count is_sign (trace env (handleSuiPayment signer)) = 1)
  /\ (forall sign,
        signer = Some sign ->
        filter is_sign (trace env (handleSuiPayment signer))
        = [Ev (SignAndExecute sign sign_request)]
        /\ count is_sign (trace env (handleSuiPayment signer)) = 1)
  /\ (signer = None ->
      count is_sign (trace env (handleSuiPayment signer)) = 0)
  /\ count is_sign (trace env (handleSuiPayment signer)) <= 1.
Proof.
  split; [|split; [|split]].
  - intros r. unfold completion, trace.
    destruct signer as [sign|]; [|discriminate].
    rewrite exec_handleSuiPayment.
    destruct (env _ (SignAndExecute sign sign_request))
      as [response|error] eqn:E; cbn [fst snd]; [|discriminate].
    intros H. injection H as <-.
    exists sign, response. repeat split; try reflexivity. exact E.
  - intros sign ->. unfold trace. rewrite exec_handleSuiPayment.
    destruct (env _ (SignAndExecute sign sign_request)); split; reflexivity.
  - intros ->. reflexivity.
  - apply handleSuiPayment_signs_once.
Qed.

End SuiTransferFacts.

(** ** The page handlers *)
Module AgentPageFacts.
Import SuiTransfer AgentPage.

(** The answer to a call that returns nothing is [tt]. *)
Ltac unit_answer env :=
  repeat match goal with
         | |- context [env unit ?o] => destruct (env unit o)
         end.

Lemma falsy_empty (s : string) : JsString.falsy s = true <-> s = "".
Proof. destruct s; simpl; split; congruence. Qed.

Lemma falsy_filled (s : string) : s <> "" -> JsString.falsy s = false.
Proof. destruct s; simpl; congruence. Qed.

(** The [catch] block logs the error and shows one error notification. *)
Lemma exec_report (env : Env) (error : JsError) :
  exists msg,
    exec env (report error)
    = (Returned (env _ (ToastError msg)),
       [Ev (ConsoleError "Error:" error); Ev (ToastError msg)]).
Proof.
  unfold report. cbn [bind perform exec].
  destruct (message_includes error "Payment cancelled");
    [eexists; reflexivity|].
  destruct (message_includes error "User rejected");
    [eexists; reflexivity|].
  destruct (message_includes error "Insufficient");
    eexists; reflexivity.
Qed.

(** A submission that fails one of the three guards shows one error
    notification and does nothing else. *)
Lemma exec_handleSubmit_refused (B : string) (env : Env) (p : Props) :
  connected p = false \/ account p = None
  \/ signAndExecuteTransactionBlock p = None
  \/ ~ required_fields_filled (props_formData p) ->
  exists msg,
    In msg validation_messages
    /\ exec env (handleSubmit B p)
       = (Returned tt, [Ev PreventDefault; Ev (ToastError msg)]).
Proof.
  intros H. unfold handleSubmit, validation_messages.
  cbn [bind perform exec].
  destruct (negb (connected p) ||
            match account p with Some _ => false | None => true end) eqn:E1.
  { eexists; split; [left; reflexivity|].
    cbn [perform exec]. unit_answer env; reflexivity. }
  destruct (signAndExecuteTransactionBlock p) as [sign|] eqn:E2.
  2:{ eexists; split; [right; left; reflexivity|].
      cbn [perform exec]. unit_answer env; reflexivity. }
  destruct (JsString.falsy (name (props_formData p))
            || JsString.falsy (twitter (props_formData p))
            || JsString.falsy (description (props_formData p))) eqn:E3.
  { eexists; split; [right; right; left; reflexivity|].
    cbn [perform exec]. unit_answer env; reflexivity. }
  exfalso. apply orb_false_iff in E1 as [E1 E1'].
  apply negb_false_iff in E1.
  apply orb_false_iff in E3 as [E3 E3c]. apply orb_false_iff in E3 as [E3a E3b].
  destruct H as [H|[H|[H|H]]]; try congruence.
  - rewrite H in E1'. discriminate.
  - apply H. repeat split; intros Hs.
    + rewrite Hs in E3a. discriminate.
    + rewrite Hs in E3b. discriminate.
    + rewrite Hs in E3c. discriminate.
Qed.

Section Attempt.

Variables (B : string) (env : Env) (p : Props) (a : Account) (sign : Signer).
Hypothesis Hconnected : connected p = true.
Hypothesis Haccount : account p = Some a.
Hypothesis Hsigner : signAndExecuteTransactionBlock p = Some sign.
Hypothesis Hfields : required_fields_filled (props_formData p).

(** Past the guards the handler is the [try] statement between the
    two [setLoading] calls. *)
Lemma exec_handleSubmit_accepted :
  exec env (handleSubmit B p) =
  let (c, t) := exec env (try_catch (attempt B p) report) in
  (c,
   Ev PreventDefault :: Ev (SetLoading true) :: t ++ [Ev (SetLoading false)]).
Proof.
  unfold handleSubmit. cbn [bind perform exec].
  destruct Hfields as (Hn & Ht & Hd).
  rewrite Hconnected, Haccount, Hsigner, !falsy_filled by assumption.
  cbn [negb orb bind perform exec].
  rewrite exec_try_finally.
  destruct (exec env (try_catch (attempt B p) report)) as [c t].
  cbn [perform exec]. destruct (env unit (SetLoading false)). reflexivity.
Qed.

(** The branch after a receipt with status "success": the POST, and
    on its acknowledgment the reset and the navigation. *)
Lemma exec_afterPayment (r : Receipt) (id : ToastId) :
  status r = "success" ->
  exec env (afterPayment B p r id) =
  let post :=
    post_request B
      (build_submitData (props_formData p) (address a) (digest r)) in
  match env _ post with
  | Fulfilled _ =>
      (Returned tt,
       [Ev (ToastSuccess "Payment successful!" (Some id));
        Ev (ToastLoading "Submitting proposal...");
        Ev post;
        Ev (ToastSuccess "Proposal submitted successfully!"
              (Some (env _ (ToastLoading "Submitting proposal..."))));
        Ev (SetFormData initialFormData);
        Ev (SetPreviewUrl None);
        Ev (Navigate "/")])
  | Rejected e =>
      (Threw e,
       [Ev (ToastSuccess "Payment successful!" (Some id));
        Ev (ToastLoading "Submitting proposal...");
        Ev post])
  end.
Proof.
  intros Hs. unfold afterPayment, submitProposal, await.
  rewrite Hs, Haccount.
  cbn [String.eqb Ascii.eqb Bool.eqb account_address bind perform exec].
  destruct (env _ (post_request B _)) as [response|e].
  - cbn [bind perform exec]. destruct (env unit (Navigate "/")).
    reflexivity.
  - reflexivity.
Qed.

(** The [try] block: the prompt, then the payment, then what follows
    the payment. *)
Lemma exec_attempt :
  exec env (attempt B p) =
  match env _ confirm_prompt with
  | Cancel => (Threw (new_Error "Payment cancelled"), [Ev confirm_prompt])
  | Confirm =>
      let id := env _ (ToastLoading "Processing payment...") in
      match exec env (handleSuiPayment (Some sign)) with
      | (Returned r, t) =>
          let (c, t') := exec env (afterPayment B p r id) in
          (c, Ev confirm_prompt
              :: Ev (ToastLoading "Processing payment...") :: t ++ t')
      | (Threw e, t) =>
          (Threw e,
           Ev confirm_prompt
           :: Ev (ToastLoading "Processing payment...") :: t)
      end
  end.
Proof.
  unfold attempt, confirmation. rewrite Hsigner.
  cbn [bind perform exec].
  destruct (env _ confirm_prompt).
  - cbn [bind perform exec negb]. rewrite exec_bind.
    destruct (exec env (handleSuiPayment (Some sign))) as [[r|e] t].
    + destruct (exec env (afterPayment B p r _)). reflexivity.
    + reflexivity.
  - reflexivity.
Qed.

(** Cancel at the prompt. *)
Lemma exec_cancelled :
  env _ confirm_prompt = Cancel ->
  exec env (handleSubmit B p) =
  (Returned tt,
   [Ev PreventDefault; Ev (SetLoading true); Ev confirm_prompt;
    Ev (ConsoleError "Error:" (new_Error "Payment cancelled"));
    Ev (ToastError "Payment cancelled by user");
    Ev (SetLoading false)]).
Proof.
  intros Hc. rewrite exec_handleSubmit_accepted, exec_try_catch.
  rewrite exec_attempt, Hc. cbn. destruct (env unit _). reflexivity.
Qed.

(** Confirm, and the wallet rejects. *)
Lemma exec_payment_failed (error : JsError) :
  env _ confirm_prompt = Confirm ->
  env _ (SignAndExecute sign sign_request) = Rejected error ->
  exists error' msg,
    exec env (handleSubmit B p) =
    (Returned tt,
     [Ev PreventDefault; Ev (SetLoading true); Ev confirm_prompt;
      Ev (ToastLoading "Processing payment...");
      Ev (SignAndExecute sign sign_request);
      Ev (ConsoleError "Payment error:" error);
      Ev (ConsoleError "Error:" error');
      Ev (ToastError msg);
      Ev (SetLoading false)]).
Proof.
  intros Hc Hs. rewrite exec_handleSubmit_accepted, exec_try_catch.
  rewrite exec_attempt, Hc. cbv zeta.
  rewrite SuiTransferFacts.exec_handleSuiPayment, Hs.
  match goal with
  | |- context [exec env (report ?e)] =>
      destruct (exec_report env e) as [msg ->]; exists e, msg
  end.
  cbn. destruct (env unit _). reflexivity.
Qed.

(** Confirm, the wallet signs, and the backend fails. *)
Lemma exec_post_failed (response : SignResponse) (error : JsError) :
  env _ confirm_prompt = Confirm ->
  env _ (SignAndExecute sign sign_request) = Fulfilled response ->
  env _ (post_request B
         (build_submitData (props_formData p) (address a)
            (resp_digest response))) = Rejected error ->
  exists msg,
    exec env (handleSubmit B p) =
    (Returned tt,
     [Ev PreventDefault; Ev (SetLoading true); Ev confirm_prompt;
      Ev (ToastLoading "Processing payment...");
      Ev (SignAndExecute sign sign_request);
      Ev (ToastSuccess "Payment successful!"
            (Some (env _ (ToastLoading "Processing payment..."))));
      Ev (ToastLoading "Submitting proposal...");
      Ev (post_request B
         (build_submitData (props_formData p) (address a)
            (resp_digest response)));
      Ev (ConsoleError "Error:" error);
      Ev (ToastError msg);
      Ev (SetLoading false)]).
Proof.
  intros Hc Hs Hp. rewrite exec_handleSubmit_accepted, exec_try_catch.
  rewrite exec_attempt, Hc. cbv zeta.
  rewrite SuiTransferFacts.exec_handleSuiPayment, Hs.
  rewrite exec_afterPayment by reflexivity.
  cbv zeta. cbn [digest]. rewrite Hp.
  destruct (exec_report env error) as [msg ->]. exists msg.
  cbn. destruct (env unit _). reflexivity.
Qed.

(** Confirm, the wallet signs, and the backend acknowledges. *)
Lemma exec_submitted (response : SignResponse) (ack : HttpResponse) :
  env _ confirm_prompt = Confirm ->
  env _ (SignAndExecute sign sign_request) = Fulfilled response ->
  env _ (post_request B
         (build_submitData (props_formData p) (address a)
            (resp_digest response))) = Fulfilled ack ->
  exec env (handleSubmit B p) =
  (Returned tt,
   [Ev PreventDefault; Ev (SetLoading true); Ev confirm_prompt;
    Ev (ToastLoading "Processing payment...");
    Ev (SignAndExecute sign sign_request);
    Ev (ToastSuccess "Payment successful!"
          (Some (env _ (ToastLoading "Processing payment..."))));
    Ev (ToastLoading "Submitting proposal...");
    Ev (post_request B
         (build_submitData (props_formData p) (address a)
            (resp_digest response)));
    Ev (ToastSuccess "Proposal submitted successfully!"
          (Some (env _ (ToastLoading "Submitting proposal..."))));
    Ev (SetFormData initialFormData);
    Ev (SetPreviewUrl None);
    Ev (Navigate "/");
    Ev (SetLoading false)]).
Proof.
  intros Hc Hs Hp. rewrite exec_handleSubmit_accepted, exec_try_catch.
  rewrite exec_attempt, Hc. cbv zeta.
  rewrite SuiTransferFacts.exec_handleSuiPayment, Hs.
  rewrite exec_afterPayment by reflexivity.
  cbv zeta. cbn [digest]. rewrite Hp.
  reflexivity.
Qed.

End Attempt.

(** *** C7: the image gate *)

Lemma acceptable_image_tests (file : File) :
  acceptable_image file <->
  (MAX_IMAGE_SIZE <? size file)%N = false
  /\ JsString.startsWith (type file) "image/" = true.
Proof.
  unfold acceptable_image, JsString.startsWith, MAX_IMAGE_SIZE.
  rewrite N.ltb_ge, JsStringFacts.prefix_split. reflexivity.
Qed.

(** C7: a picked file is attached to the draft, and the preview is set
    from it, exactly when it is at most 5 MiB and its MIME type begins
    with "image/"; otherwise one error is shown and neither the draft nor
    the preview changes. *)
Theorem handleImageUpload_gate
    (env : Env) (formData : FormState) (file : File) :
  (acceptable_image file ->
     trace env (handleImageUpload formData (Some file))
     = [Ev (SetFormData
              {| name := name formData;
                 twitter := twitter formData;
                 website := website formData;
                 description := description formData;
                 profilePicture := Some file |});
        Ev (ReadAsDataURL file);
        Ev (SetPreviewUrl (env _ (ReadAsDataURL file)))])
  /\ (~ acceptable_image file ->
      exists msg,
        trace env (handleImageUpload formData (Some file))
        = [Ev (ToastError msg)]
        /\ count is_state_update
             (trace env (handleImageUpload formData (Some file))) = 0
        /\ forall st,
             final_state st
               (trace env (handleImageUpload formData (Some file))) = st).
Proof.
  rewrite acceptable_image_tests. unfold trace, handleImageUpload.
  destruct (MAX_IMAGE_SIZE <? size file)%N.
  - split; [intros [H _]; discriminate|].
    intros _. eexists. cbn. repeat split.
  - destruct (JsString.startsWith (type file) "image/").
    + split; [intros _; reflexivity|]. intros H. exfalso. apply H. auto.
    + split; [intros [_ H]; discriminate|].
      intros _. eexists. cbn. repeat split.
Qed.

(** *** Splitting a trace at its only call of a kind *)

Lemma none_split {X : Type} (f : X -> bool) (t pre post : list X) (e : X) :
  forallb (fun x => negb (f x)) t = true ->
  t = pre ++ e :: post -> f e = true -> False.
Proof.
  intros Hall -> He. rewrite forallb_app in Hall.
  apply andb_true_iff in Hall as [_ Hall]. cbn in Hall.
  rewrite He in Hall. discriminate.
Qed.

Lemma only_split {X : Type} (f : X -> bool) (l1 l2 pre post : list X)
    (x e : X) :
  forallb (fun y => negb (f y)) l1 = true ->
  forallb (fun y => negb (f y)) l2 = true ->
  l1 ++ x :: l2 = pre ++ e :: post -> f e = true ->
  pre = l1 /\ e = x /\ post = l2.
Proof.
  revert pre. induction l1 as [|y l1 IH]; intros pre H1 H2 Heq He.
  - destruct pre as [|z pre]; cbn in Heq.
    + injection Heq as -> ->. auto.
    + injection Heq as -> ->. exfalso.
      eapply none_split; [exact H2 | reflexivity | exact He].
  - cbn in H1. apply andb_true_iff in H1 as [Hy H1].
    destruct pre as [|z pre]; cbn in Heq.
    + injection Heq as <- _. rewrite He in Hy. discriminate.
    + injection Heq as <- Heq.
      destruct (IH pre H1 H2 Heq He) as (-> & -> & ->). auto.
Qed.

(** *** C3: a missing required field *)

(** C3: when the name, the twitter handle or the description of the
    draft is empty, [handleSubmit] shows one of its validation errors and
    returns: no prompt, no signing call, no HTTP call, and the component
    state (form, preview, loading flag) is left as it was. *)
Theorem handleSubmit_missing_field (B : string) (env : Env) (p : Props) :
  name (props_formData p) = ""
  \/ twitter (props_formData p) = ""
  \/ description (props_formData p) = "" ->
  exists msg,
    In msg validation_messages
    /\ exec env (handleSubmit B p)
       = (Returned tt, [Ev PreventDefault; Ev (ToastError msg)])
    /\ count is_prompt (trace env (handleSubmit B p)) = 0
    /\ count is_sign (trace env (handleSubmit B p)) = 0
    /\ count is_post (trace env (handleSubmit B p)) = 0
    /\ forall st, final_state st (trace env (handleSubmit B p)) = st.
Proof.
  intros H.
  destruct (exec_handleSubmit_refused B env p) as (msg & Hin & Hex).
  { right; right; right. intros (Hn & Ht & Hd). tauto. }
  exists msg. unfold trace. rewrite Hex. cbn. auto 10.
Qed.

(** *** C6: Cancel at the prompt *)

(** C6: when the user clicks Cancel at the prompt, the attempt makes no
    signing call and no HTTP call, reports "Payment cancelled by user",
    and leaves the form and the preview as entered, with the loading flag
    down. *)
Theorem handleSubmit_cancel
    (B : string) (env : Env) (p : Props) (a : Account) (sign : Signer) :
  connected p = true ->
  account p = Some a ->
  signAndExecuteTransactionBlock p = Some sign ->
  required_fields_filled (props_formData p) ->
  env _ confirm_prompt = Cancel ->
  exec env (handleSubmit B p)
  = (Returned tt,
     [Ev PreventDefault; Ev (SetLoading true); Ev confirm_prompt;
      Ev (ConsoleError "Error:" (new_Error "Payment cancelled"));
      Ev (ToastError "Payment cancelled by user");
      Ev (SetLoading false)])
  /\ count is_sign (trace env (handleSubmit B p)) = 0
  /\ count is_post (trace env (handleSubmit B p)) = 0
  /\ forall st,
       final_state st (trace env (handleSubmit B p))
       = {| loading := false; formData := formData st;
            previewUrl := previewUrl st |}.
Proof.
  intros Hc Ha Hs Hf Hcancel. unfold trace.
  rewrite (exec_cancelled B env p a sign Hc Ha Hs Hf Hcancel).
  cbn. auto.
Qed.

(** *** C4: payment and submission both succeed *)

(** C4: when the user confirms, the wallet signs and the backend
    acknowledges the POST, [handleSubmit] leaves the component in its
    initial state (empty form, no picture, no preview, loading flag down)
    and navigates to "/" exactly once. *)
Theorem handleSubmit_success
    (B : string) (env : Env) (p : Props) (a : Account) (sign : Signer)
    (response : SignResponse) (ack : HttpResponse) :
  connected p = true ->
  account p = Some a ->
  signAndExecuteTransactionBlock p = Some sign ->
  required_fields_filled (props_formData p) ->
  env _ confirm_prompt = Confirm ->
  env _ (SignAndExecute sign sign_request) = Fulfilled response ->
  env _ (post_request B
           (build_submitData (props_formData p) (address a)
              (resp_digest response))) = Fulfilled ack ->
  completion env (handleSubmit B p) = Returned tt
  /\ (forall st,
        final_state st (trace env (handleSubmit B p)) = initialState)
  /\ count (is_navigate "/") (trace env (handleSubmit B p)) = 1
  /\ count is_sign (trace env (handleSubmit B p)) = 1
  /\ count is_post (trace env (handleSubmit B p)) = 1.
Proof.
  intros Hc Ha Hs Hf Hconfirm Hsigned Hposted. unfold completion, trace.
  rewrite (exec_submitted B env p a sign Hc Ha Hs Hf response ack
             Hconfirm Hsigned Hposted).
  cbn. auto.
Qed.

(** *** C5: the backend fails after a successful payment *)

(** C5: when the user confirms, the wallet signs and the POST fails,
    [handleSubmit] reports one error and ends with the loading flag down;
    the form and the preview keep what was entered, nothing of the
    receipt is kept, and the signing call and the POST were each made
    once. *)
Theorem handleSubmit_backend_failure
    (B : string) (env : Env) (p : Props) (a : Account) (sign : Signer)
    (response : SignResponse) (error : JsError) :
  connected p = true ->
  account p = Some a ->
  signAndExecuteTransactionBlock p = Some sign ->
  required_fields_filled (props_formData p) ->
  env _ confirm_prompt = Confirm ->
  env _ (SignAndExecute sign sign_request) = Fulfilled response ->
  env _ (post_request B
           (build_submitData (props_formData p) (address a)
              (resp_digest response))) = Rejected error ->
  exists msg,
    exec env (handleSubmit B p)
    = (Returned tt,
       [Ev PreventDefault; Ev (SetLoading true); Ev confirm_prompt;
        Ev (ToastLoading "Processing payment...");
        Ev (SignAndExecute sign sign_request);
        Ev (ToastSuccess "Payment successful!"
              (Some (env _ (ToastLoading "Processing payment..."))));
        Ev (ToastLoading "Submitting proposal...");
        Ev (post_request B
              (build_submitData (props_formData p) (address a)
                 (resp_digest response)));
        Ev (ConsoleError "Error:" error);
        Ev (ToastError msg);
        Ev (SetLoading false)])
    /\ count is_sign (trace env (handleSubmit B p)) = 1
    /\ count is_post (trace env (handleSubmit B p)) = 1
    /\ count is_toast_error (trace env (handleSubmit B p)) = 1
    /\ forall st,
         final_state st (trace env (handleSubmit B p))
         = {| loading := false; formData := formData st;
              previewUrl := previewUrl st |}.
Proof.
  intros Hc Ha Hs Hf Hconfirm Hsigned Hposted. unfold trace.
  destruct (exec_post_failed B env p a sign Hc Ha Hs Hf response error
              Hconfirm Hsigned Hposted) as [msg ->].
  exists msg. cbn. auto.
Qed.

(** *** C1 and C10: the POST and the payment *)

Lemma required_fields_dec (f : FormState) :
  {required_fields_filled f} + {~ required_fields_filled f}.
Proof.
  unfold required_fields_filled.
  destruct (string_dec (name f) ""); [right; tauto|].
  destruct (string_dec (twitter f) ""); [right; tauto|].
  destruct (string_dec (description f) ""); [right; tauto|].
  left. auto.
Qed.

(** Every run of [handleSubmit] is refused at a guard or is one of the
    four attempts. *)
Lemma handleSubmit_runs (B : string) (env : Env) (p : Props) :
  (exists msg,
     exec env (handleSubmit B p)
     = (Returned tt, [Ev PreventDefault; Ev (ToastError msg)]))
  \/ exists a sign,
       connected p = true /\ account p = Some a
       /\ signAndExecuteTransactionBlock p = Some sign
       /\ required_fields_filled (props_formData p).
Proof.
  destruct (connected p) eqn:Hc.
  2:{ left. destruct (exec_handleSubmit_refused B env p) as (m & _ & H);
        [auto | eauto]. }
  destruct (account p) as [a|] eqn:Ha.
  2:{ left. destruct (exec_handleSubmit_refused B env p) as (m & _ & H);
        [auto | eauto]. }
  destruct (signAndExecuteTransactionBlock p) as [sign|] eqn:Hs.
  2:{ left. destruct (exec_handleSubmit_refused B env p) as (m & _ & H);
        [auto | eauto]. }
  destruct (required_fields_dec (props_formData p)) as [Hf|Hf].
  2:{ left. destruct (exec_handleSubmit_refused B env p) as (m & _ & H);
        [auto | eauto]. }
  right. exists a, sign. auto.
Qed.

(** C1: in every run of [handleSubmit], a POST in the trace is the POST
    of the form data built with the digest of a receipt that
    [handleSuiPayment] returned in this run with status "success", and
    the calls of that payment come before it in the trace. *)
Theorem submission_only_after_payment
    (B : string) (env : Env) (p : Props) (pre post : Trace) (e : event) :
  trace env (handleSubmit B p) = pre ++ e :: post ->
  is_post e = true ->
  exists r a pre1 pre2,
    completion env (handleSuiPayment (signAndExecuteTransactionBlock p))
    = Returned r
    /\ status r = "success"
    /\ pre = pre1
             ++ trace env (handleSuiPayment (signAndExecuteTransactionBlock p))
             ++ pre2
    /\ account p = Some a
    /\ e = Ev (post_request B
                 (build_submitData (props_formData p) (address a) (digest r)))
    /\ count is_post post = 0.
Proof.
  unfold trace, completion. intros Ht He.
  destruct (handleSubmit_runs B env p)
    as [[msg Hex] | (a & sign & Hc & Ha & Hs & Hf)].
  { rewrite Hex in Ht. exfalso.
    eapply (none_split is_post); [|exact Ht|exact He]. reflexivity. }
  destruct (env _ confirm_prompt) eqn:Hprompt.
  2:{ rewrite (exec_cancelled B env p a sign Hc Ha Hs Hf Hprompt) in Ht.
      exfalso. eapply (none_split is_post); [|exact Ht|exact He].
      reflexivity. }
  destruct (env _ (SignAndExecute sign sign_request))
    as [response|error] eqn:Hsigned.
  2:{ destruct (exec_payment_failed B env p a sign Hc Ha Hs Hf error
                  Hprompt Hsigned) as (error' & msg & Hex).
      rewrite Hex in Ht. exfalso.
      eapply (none_split is_post); [|exact Ht|exact He]. reflexivity. }
  assert (Hpay : exec env (handleSuiPayment (Some sign))
                 = (Returned {| digest := resp_digest response;
                                status := "success";
                                amount := SUI_AMOUNT;
                                receiver := FUND_RECEIVER_ADDRESS |},
                    [Ev (SignAndExecute sign sign_request)])).
  { rewrite SuiTransferFacts.exec_handleSuiPayment, Hsigned. reflexivity. }
  rewrite Hs, Hpay. cbn [fst snd].
  destruct (env _ (post_request B
                     (build_submitData (props_formData p) (address a)
                        (resp_digest response))))
    as [ack|error] eqn:Hposted.
  - rewrite (exec_submitted B env p a sign Hc Ha Hs Hf response ack
               Hprompt Hsigned Hposted) in Ht.
    cbn [snd] in Ht.
    apply (only_split is_post
             [Ev PreventDefault; Ev (SetLoading true); Ev confirm_prompt;
              Ev (ToastLoading "Processing payment...");
              Ev (SignAndExecute sign sign_request);
              Ev (ToastSuccess "Payment successful!"
                    (Some (env _ (ToastLoading "Processing payment..."))));
              Ev (ToastLoading "Submitting proposal...")])
      in Ht as (-> & -> & ->); [|reflexivity|reflexivity|exact He].
    eexists _, a, [_; _; _; _], [_; _].
    repeat split; try reflexivity. exact Ha.
  - destruct (exec_post_failed B env p a sign Hc Ha Hs Hf response error
                Hprompt Hsigned Hposted) as [msg Hex].
    rewrite Hex in Ht. cbn [snd] in Ht.
    apply (only_split is_post
             [Ev PreventDefault; Ev (SetLoading true); Ev confirm_prompt;
              Ev (ToastLoading "Processing payment...");
              Ev (SignAndExecute sign sign_request);
              Ev (ToastSuccess "Payment successful!"
                    (Some (env _ (ToastLoading "Processing payment..."))));
              Ev (ToastLoading "Submitting proposal...")])
      in Ht as (-> & -> & ->); [|reflexivity|reflexivity|exact He].
    eexists _, a, [_; _; _; _], [_; _].
    repeat split; try reflexivity. exact Ha.
Qed.

(** C10: a receipt that [handleSuiPayment] returns has status "success";
    so what follows the payment in [handleSubmit] is the submission
    branch, and a run in which the signer was called and the payment
    returned makes the POST. *)
Theorem payment_return_is_success
    (B : string) (env : Env) (p : Props) (r : Receipt) (id : ToastId) :
  completion env (handleSuiPayment (signAndExecuteTransactionBlock p))
  = Returned r ->
  status r = "success"
  /\ afterPayment B p r id = submitProposal B p r id
  /\ (1 <= count is_sign (trace env (handleSubmit B p)) ->
      count is_post (trace env (handleSubmit B p)) = 1).
Proof.
  intros Hr.
  destruct (SuiTransferFacts.handleSuiPayment_returns env _ r Hr)
    as (sign & response & Hs & Hsigned & ->).
  split; [reflexivity|]. split; [reflexivity|].
  unfold trace. intros Hcount.
  destruct (handleSubmit_runs B env p)
    as [[msg Hex] | (a & sign' & Hc & Ha & Hs' & Hf)].
  { rewrite Hex in Hcount. cbn in Hcount. lia. }
  assert (sign' = sign) by congruence. subst sign'.
  destruct (env _ confirm_prompt) eqn:Hprompt.
  2:{ rewrite (exec_cancelled B env p a sign Hc Ha Hs Hf Hprompt) in Hcount.
      cbn in Hcount. lia. }
  destruct (env _ (post_request B
                     (build_submitData (props_formData p) (address a)
                        (resp_digest response))))
    as [ack|error] eqn:Hposted.
  - rewrite (exec_submitted B env p a sign Hc Ha Hs Hf response ack
               Hprompt Hsigned Hposted). reflexivity.
  - destruct (exec_post_failed B env p a sign Hc Ha Hs Hf response error
                Hprompt Hsigned Hposted) as [msg ->]. reflexivity.
Qed.

End AgentPageFacts.

(** ** The loading flag under the event loop *)
Module EventLoopFacts.
Import SuiTransfer AgentPage EventLoop.

Lemma loading_apply_op {R : Type} (o : op R) (st : CompState) :
  loading (apply_op o st) = loading_after o (loading st).
Proof. destruct o; reflexivity. Qed.

Lemma async_keeps_loading {R : Type} (o : op R) (l : bool) :
  is_async o = true -> loading_after o l = l.
Proof. destruct o; simpl; congruence. Qed.

(** *** Handlers that never call [setLoading] *)

Lemma quiet_bind {A B : Type} (p : prog A) (f : A -> prog B) :
  quiet p -> (forall a, quiet (f a)) -> quiet (bind p f).
Proof.
  intros Hp Hf. induction p as [a|e|R o k IH]; simpl in *; auto.
  destruct Hp as [Ho Hk]. split; auto.
Qed.

Lemma quiet_try_catch {A : Type} (p : prog A) (h : JsError -> prog A) :
  quiet p -> (forall e, quiet (h e)) -> quiet (try_catch p h).
Proof.
  intros Hp Hh. induction p as [a|e|R o k IH]; simpl in *; auto.
  destruct Hp as [Ho Hk]. split; auto.
Qed.

Lemma quiet_handleSuiPayment (signer : option Signer) :
  quiet (handleSuiPayment signer).
Proof.
  destruct signer as [sign|]; simpl; [|exact I].
  split; [reflexivity|]. intros [response|error]; simpl; [exact I|].
  split; [reflexivity|]. intros _.
  destruct (message_lower_includes error "insufficient"); [exact I|].
  destruct (message_lower_includes error "reject"); exact I.
Qed.

Lemma quiet_report (error : JsError) : quiet (report error).
Proof.
  unfold report. simpl. split; [reflexivity|]. intros _.
  destruct (message_includes error "Payment cancelled");
    [simpl; auto|].
  destruct (message_includes error "User rejected"); [simpl; auto|].
  destruct (message_includes error "Insufficient"); simpl; auto.
Qed.

Lemma quiet_afterPayment (B : string) (p : Props) (r : Receipt) (id : ToastId) :
  quiet (afterPayment B p r id).
Proof.
  unfold afterPayment. destruct (String.eqb (status r) "success"); [|exact I].
  unfold submitProposal. simpl. split; [reflexivity|]. intros _.
  split; [reflexivity|]. intros id2.
  destruct (account p) as [a|]; simpl; [|exact I].
  split; [reflexivity|]. intros [ack|error]; simpl; [|exact I].
  repeat (split; [reflexivity|]; intros _). exact I.
Qed.

Lemma quiet_attempt (B : string) (p : Props) : quiet (attempt B p).
Proof.
  unfold attempt, confirmation. simpl. split; [reflexivity|].
  intros [|]; simpl; [|exact I].
  split; [reflexivity|]. intros id.
  apply quiet_bind; [apply quiet_handleSuiPayment|].
  intros r. apply quiet_afterPayment.
Qed.

Lemma quiet_handleImageUpload (formData : FormState) (file : option File) :
  quiet (handleImageUpload formData file).
Proof.
  destruct file as [file|]; simpl; [|exact I].
  destruct (MAX_IMAGE_SIZE <? size file)%N; [simpl; auto|].
  destruct (JsString.startsWith (type file) "image/"); simpl; auto 10.
Qed.

(** *** The [finally] block brings the flag down *)

Lemma guarded_finally {A : Type} (p : prog A) :
  quiet p -> guarded true (try_finally p (perform (SetLoading false))).
Proof.
  induction p as [a|e|R o k IH]; simpl.
  - intros _. split; [discriminate | reflexivity].
  - intros _. split; [discriminate | reflexivity].
  - intros [Ho Hk]. split; [reflexivity|].
    intros r. rewrite Ho. apply IH, Hk.
Qed.

(** From a lowered flag, [handleSubmit] raises it before its first
    awaited call and lowers it before it ends. *)
Lemma guarded_handleSubmit (B : string) (p : Props) :
  guarded false (handleSubmit B p).
Proof.
  unfold handleSubmit.
  cbn [bind perform guarded is_async loading_after].
  split; [discriminate|]. intros _.
  destruct (negb (connected p) ||
            match account p with Some _ => false | None => true end);
    [cbn; split; [discriminate | reflexivity]|].
  destruct (signAndExecuteTransactionBlock p);
    [|cbn; split; [discriminate | reflexivity]].
  destruct (JsString.falsy (name (props_formData p))
            || JsString.falsy (twitter (props_formData p))
            || JsString.falsy (description (props_formData p)));
    [cbn; split; [discriminate | reflexivity]|].
  cbn [bind perform guarded is_async loading_after].
  split; [discriminate|]. intros _.
  apply guarded_finally, quiet_try_catch;
    [apply quiet_attempt | apply quiet_report].
Qed.

(** *** One uninterrupted run *)

Lemma advance_guarded (env : Env) (p : prog unit) (st st' : CompState)
    (s : option (prog unit)) :
  guarded (loading st) p ->
  advance env p st = (st', s) ->
  match s with
  | None => loading st' = false
  | Some q => loading st' = true /\ guarded true q
  end.
Proof.
  revert st. induction p as [a|e|R o k IH]; intros st Hg Ha; simpl in *.
  - injection Ha as <- <-. exact Hg.
  - injection Ha as <- <-. exact Hg.
  - destruct Hg as [Hasync Hk]. destruct (is_async o) eqn:Eo.
    + injection Ha as <- <-. specialize (Hasync eq_refl).
      split; [exact Hasync|]. rewrite <- Hasync. simpl. split; auto.
    + apply (IH (env R o) (apply_op o st)); [|exact Ha].
      rewrite loading_apply_op. apply Hk.
Qed.

Lemma advance_quiet (env : Env) (p : prog unit) (st st' : CompState)
    (s : option (prog unit)) :
  quiet p ->
  advance env p st = (st', s) ->
  loading st' = loading st /\ Forall (fun q => quiet q) (suspended s).
Proof.
  revert st. induction p as [a|e|R o k IH]; intros st Hq Ha; simpl in *.
  - injection Ha as <- <-. auto.
  - injection Ha as <- <-. auto.
  - destruct Hq as [Ho Hk]. destruct (is_async o) eqn:Eo.
    + injection Ha as <- <-. split; [reflexivity|].
      constructor; [|constructor]. simpl. auto.
    + destruct (IH (env R o) (apply_op o st) (Hk _) Ha) as [Hl Hs].
      split; [|exact Hs].
      rewrite Hl, loading_apply_op. apply Ho.
Qed.

(** *** The invariant *)

Lemma invariant_mount (w : Props) : page_invariant (mount w).
Proof. split; [constructor | left; auto]. Qed.

Lemma invariant_step (B : string) (pg pg' : Page) :
  page_invariant pg -> step B pg pg' -> page_invariant pg'.
Proof.
  intros [Hup Hsub] Hstep.
  destruct Hstep as
    [env pg st s Hen Hadv
    |env pg l1 l2 R o k r st s Hasync Hsplit Hadv
    |env pg file st s Hadv
    |env pg l1 l2 R o k r st s Hasync Hsplit Hadv
    |pg f Hpic
    |pg w]; unfold page_invariant; simpl.
  - (* submit *)
    split; [exact Hup|].
    unfold submit_enabled, submit_disabled in Hen.
    apply orb_false_iff in Hen as [Hl _].
    destruct Hsub as [[Hnil _] | (q & _ & Hl' & _)]; [|congruence].
    rewrite Hnil. simpl.
    pose proof (advance_guarded env _ _ _ _
                  ltac:(rewrite Hl; apply guarded_handleSubmit) Hadv) as H.
    destruct s as [q|]; simpl.
    + right. exists q. destruct H. auto.
    + left. auto.
  - (* settle *)
    split; [exact Hup|].
    destruct Hsub as [[Hnil _] | (q & Hq & Hl & Hg)].
    { rewrite Hnil in Hsplit. destruct l1; discriminate. }
    rewrite Hq in Hsplit.
    destruct l1 as [|x l1]; [|destruct l1; discriminate].
    simpl in Hsplit. injection Hsplit as -> <-.
    simpl in Hg. destruct Hg as [_ Hk]. specialize (Hk r).
    rewrite (async_keeps_loading o true Hasync) in Hk.
    pose proof (advance_guarded env _ _ _ _
                  ltac:(rewrite Hl; exact Hk) Hadv) as H.
    destruct s as [q'|]; simpl.
    + right. exists q'. destruct H. auto.
    + left. auto.
  - (* upload *)
    destruct (advance_quiet env _ _ _ _
                (quiet_handleImageUpload _ file) Hadv) as [Hl Hs].
    split; [apply Forall_app; auto|]. rewrite Hl. exact Hsub.
  - (* loaded *)
    rewrite Hsplit in Hup. apply Forall_app in Hup as [H1 H2].
    inversion H2 as [|x l Hx H2' Heq]; subst.
    destruct Hx as [_ Hk].
    destruct (advance_quiet env _ _ _ _ (Hk r) Hadv) as [Hl Hs].
    split; [apply Forall_app; split; [exact H1|apply Forall_app; auto]|].
    rewrite Hl. exact Hsub.
  - (* edit *)
    split; [exact Hup | exact Hsub].
  - (* wallet *)
    split; [exact Hup | exact Hsub].
Qed.

Lemma invariant_reachable (B : string) (w : Props) (pg : Page) :
  reachable B w pg -> page_invariant pg.
Proof.
  induction 1 as [|pg pg' _ IH Hstep].
  - apply invariant_mount.
  - exact (invariant_step B pg pg' IH Hstep).
Qed.

(** C9: on every page the event loop reaches, at most one submission is
    in flight; while one is, the loading flag is up and the submit button
    is disabled, so that no further submission can start; and once none
    is in flight the loading flag is down again. *)
Theorem loading_guards_submission (B : string) (w : Props) (pg : Page) :
  reachable B w pg ->
  List.length (submissions pg) <= 1
  /\ (submissions pg <> [] ->
      loading (comp pg) = true
      /\ submit_disabled (loading (comp pg)) (connected (wallet pg)) = true
      /\ ~ submit_enabled pg)
  /\ (submissions pg = [] -> loading (comp pg) = false).
Proof.
  intros Hr. destruct (invariant_reachable B w pg Hr) as [_ Hsub].
  destruct Hsub as [[Hnil Hl] | (q & Hq & Hl & _)].
  - rewrite Hnil. simpl. split; [lia|]. split; [congruence | auto].
  - rewrite Hq. simpl. split; [lia|]. split; [|discriminate].
    intros _. unfold submit_enabled, submit_disabled. rewrite Hl. simpl.
    split; [reflexivity|]. split; [reflexivity | discriminate].
Qed.

End EventLoopFacts.

(** ** The worked attempt, run through the properties *)
Module WorkedAttempt.
Import SuiTransfer AgentPage EventLoop.

(** The example run makes its POST after the payment returned. *)
Lemma submission_only_after_payment_witness :
  exists r a pre1 pre2,
    completion example_env
      (handleSuiPayment (signAndExecuteTransactionBlock example_props))
    = Returned r
    /\ status r = "success"
    /\ firstn 7 (trace example_env (handleSubmit example_backend example_props))
       = pre1
         ++ trace example_env
              (handleSuiPayment (signAndExecuteTransactionBlock example_props))
         ++ pre2
    /\ account example_props = Some a
    /\ Ev (post_request example_backend
             (build_submitData example_form "0x7e57" "0xabc"))
       = Ev (post_request example_backend
               (build_submitData (props_formData example_props) (address a)
                  (digest r)))
    /\ count is_post
         (skipn 8 (trace example_env
                     (handleSubmit example_backend example_props))) = 0.
Proof.
  apply (AgentPageFacts.submission_only_after_payment
           example_backend example_env example_props).
  - reflexivity.
  - reflexivity.
Defined.

(** A wallet error "User REJECTED the request" is a user rejection. *)
Lemma handleSuiPayment_classifies_witness :
  completion example_env_rejected (handleSuiPayment (Some example_signer))
  = Threw (new_Error "User rejected the transaction").
Proof.
  refine (proj1 (proj2 (SuiTransferFacts.handleSuiPayment_classifies
                          example_env_rejected example_signer
                          example_wallet_error eq_refl)) _ _).
  - intros H.
    apply (SuiTransferFacts.mentions_lower_includes
             example_wallet_error "insufficient" eq_refl) in H.
    discriminate H.
  - apply (SuiTransferFacts.mentions_lower_includes
             example_wallet_error "reject" eq_refl).
    reflexivity.
Defined.

(** The empty form is refused. *)
Lemma handleSubmit_missing_field_witness :
  exists msg,
    In msg validation_messages
    /\ exec example_env (handleSubmit example_backend example_blank_props)
       = (Returned tt, [Ev PreventDefault; Ev (ToastError msg)])
    /\ count is_prompt
         (trace example_env (handleSubmit example_backend example_blank_props))
       = 0
    /\ count is_sign
         (trace example_env (handleSubmit example_backend example_blank_props))
       = 0
    /\ count is_post
         (trace example_env (handleSubmit example_backend example_blank_props))
       = 0
    /\ forall st,
         final_state st
           (trace example_env
              (handleSubmit example_backend example_blank_props)) = st.
Proof.
  apply (AgentPageFacts.handleSubmit_missing_field
           example_backend example_env example_blank_props).
  left. reflexivity.
Defined.

Lemma example_fields_filled : required_fields_filled example_form.
Proof. repeat split; discriminate. Defined.

(** The example run ends on the initial state with one navigation. *)
Lemma handleSubmit_success_witness :
  completion example_env (handleSubmit example_backend example_props)
  = Returned tt
  /\ (forall st,
        final_state st
          (trace example_env (handleSubmit example_backend example_props))
        = initialState)
  /\ count (is_navigate "/")
       (trace example_env (handleSubmit example_backend example_props)) = 1
  /\ count is_sign
       (trace example_env (handleSubmit example_backend example_props)) = 1
  /\ count is_post
       (trace example_env (handleSubmit example_backend example_props)) = 1.
Proof.
  exact (AgentPageFacts.handleSubmit_success
           example_backend example_env example_props
           example_account example_signer example_response example_ack
           eq_refl eq_refl eq_refl example_fields_filled
           eq_refl eq_refl eq_refl).
Defined.

(** With the backend out of reach the form is kept. *)
Lemma handleSubmit_backend_failure_witness :
  exists msg,
    exec example_env_offline (handleSubmit example_backend example_props)
    = (Returned tt,
       [Ev PreventDefault; Ev (SetLoading true); Ev confirm_prompt;
        Ev (ToastLoading "Processing payment...");
        Ev (SignAndExecute example_signer sign_request);
        Ev (ToastSuccess "Payment successful!"
              (Some (example_env_offline _
                       (ToastLoading "Processing payment..."))));
        Ev (ToastLoading "Submitting proposal...");
        Ev (post_request example_backend
              (build_submitData (props_formData example_props)
                 (address example_account)
                 (resp_digest example_response)));
        Ev (ConsoleError "Error:" example_network_error);
        Ev (ToastError msg);
        Ev (SetLoading false)])
    /\ count is_sign
         (trace example_env_offline
            (handleSubmit example_backend example_props)) = 1
    /\ count is_post
         (trace example_env_offline
            (handleSubmit example_backend example_props)) = 1
    /\ count is_toast_error
         (trace example_env_offline
            (handleSubmit example_backend example_props)) = 1
    /\ forall st,
         final_state st
           (trace example_env_offline
              (handleSubmit example_backend example_props))
         = {| loading := false; formData := formData st;
              previewUrl := previewUrl st |}.
Proof.
  exact (AgentPageFacts.handleSubmit_backend_failure
           example_backend example_env_offline example_props
           example_account example_signer example_response
           example_network_error
           eq_refl eq_refl eq_refl example_fields_filled
           eq_refl eq_refl eq_refl).
Defined.

(** Cancel at the prompt of the example attempt. *)
Lemma handleSubmit_cancel_witness :
  exec example_env_cancel (handleSubmit example_backend example_props)
  = (Returned tt,
     [Ev PreventDefault; Ev (SetLoading true); Ev confirm_prompt;
      Ev (ConsoleError "Error:" (new_Error "Payment cancelled"));
      Ev (ToastError "Payment cancelled by user");
      Ev (SetLoading false)])
  /\ count is_sign
       (trace example_env_cancel
          (handleSubmit example_backend example_props)) = 0
  /\ count is_post
       (trace example_env_cancel
          (handleSubmit example_backend example_props)) = 0
  /\ forall st,
       final_state st
         (trace example_env_cancel
            (handleSubmit example_backend example_props))
       = {| loading := false; formData := formData st;
            previewUrl := previewUrl st |}.
Proof.
  exact (AgentPageFacts.handleSubmit_cancel
           example_backend example_env_cancel example_props
           example_account example_signer
           eq_refl eq_refl eq_refl example_fields_filled eq_refl).
Defined.

(** The receipt of the example payment. *)
Lemma handleSuiPayment_receipt_witness :
  exists sign response,
    Some example_signer = Some sign
    /\ example_env _ (SignAndExecute sign sign_request) = Fulfilled response
    /\ digest example_receipt = resp_digest response
    /\ amount example_receipt = 1000000000%Z
    /\ receiver example_receipt = FUND_RECEIVER_ADDRESS
    /\ trace example_env (handleSuiPayment (Some example_signer))
       = [Ev (SignAndExecute sign sign_request)]
    /\ showEvents (options sign_request) = true
    /\ count is_sign (trace example_env (handleSuiPayment (Some example_signer)))
       = 1.
Proof.
  exact (proj1 (SuiTransferFacts.handleSuiPayment_receipt
                  example_env (Some example_signer))
           example_receipt eq_refl).
Defined.

(** On the example page one submission is in flight, suspended at the
    prompt, with the loading flag up. *)
Example example_waiting_in_flight :
  List.length (submissions example_waiting) = 1
  /\ loading (comp example_waiting) = true
  /\ formData (comp example_waiting) = example_form.
Proof. repeat split. Qed.

(** The example page while its submission waits at the prompt. *)
Lemma loading_guards_submission_witness :
  List.length (submissions example_waiting) <= 1
  /\ (submissions example_waiting <> [] ->
      loading (comp example_waiting) = true
      /\ submit_disabled (loading (comp example_waiting))
           (connected (wallet example_waiting)) = true
      /\ ~ submit_enabled example_waiting)
  /\ (submissions example_waiting = [] ->
      loading (comp example_waiting) = false).
Proof.
  apply (EventLoopFacts.loading_guards_submission
           example_backend example_props example_waiting).
  apply (reachable_step example_backend example_props example_filled).
  - apply (reachable_step example_backend example_props (mount example_props)).
    + apply reachable_mount.
    + exact (step_edit example_backend (mount example_props) example_form
               eq_refl).
  - exact (step_submit example_backend example_env example_filled
             _ _ eq_refl eq_refl).
Defined.

(** The receipt of the example payment opens the submission branch. *)
Lemma payment_return_is_success_witness :
  status example_receipt = "success"
  /\ afterPayment example_backend example_props example_receipt "1"
     = submitProposal example_backend example_props example_receipt "1"
  /\ (1 <= count is_sign
             (trace example_env (handleSubmit example_backend example_props)) ->
      count is_post
        (trace example_env (handleSubmit example_backend example_props)) = 1).
Proof.
  exact (AgentPageFacts.payment_return_is_success
           example_backend example_env example_props example_receipt "1"
           eq_refl).
Defined.

End WorkedAttempt.

(** ** More on the payment initiator *)
Module SuiTransferMore.
Import SuiTransfer.

(** X1: a payment returns a receipt exactly when it was given a signer and
    the wallet fulfilled the signing call; without a signer it throws
    "Wallet not connected" before any call is made. *)
Theorem handleSuiPayment_returns_iff (env : Env) (signer : option Signer) :
  ((exists r, completion env (handleSuiPayment signer) = Returned r)
   <-> exists sign response,
         signer = Some sign
         /\ env _ (SignAndExecute sign sign_request) = Fulfilled response)
  /\ (signer = None ->
      exec env (handleSuiPayment signer)
      = (Threw (new_Error "Wallet not connected"), [])).
Proof.
  split.
  - split.
    + intros [r Hr].
      destruct (SuiTransferFacts.handleSuiPayment_returns env signer r Hr)
        as (sign & response & Hs & He & _).
      exists sign, response. auto.
    + intros (sign & response & -> & He). unfold completion.
      rewrite SuiTransferFacts.exec_handleSuiPayment, He.
      eexists. reflexivity.
  - intros ->. reflexivity.
Qed.

(** X2: whatever the wallet answers, a payment only ever calls the signer
    (once at most) and the console: it shows no notification, sets no
    state, sends no HTTP request and does not navigate.  Its trace is
    empty (no signer), or the signing call alone, or the signing call
    followed by one console log of the error the wallet rejected with;
    so a console log only ever comes after the signing call. *)
Theorem handleSuiPayment_footprint (env : Env) (signer : option Signer) :
  forallb (fun e => is_sign e || is_console e)
    (trace env (handleSuiPayment signer)) = true
  /\ count is_sign (trace env (handleSuiPayment signer)) <= 1
  /\ count is_console (trace env (handleSuiPayment signer))
     <= count is_sign (trace env (handleSuiPayment signer))
  /\ ((signer = None /\ trace env (handleSuiPayment signer) = [])
      \/ exists sign,
           signer = Some sign
           /\ (trace env (handleSuiPayment signer)
               = [Ev (SignAndExecute sign sign_request)]
               \/ exists error,
                    env _ (SignAndExecute sign sign_request) = Rejected error
                    /\ trace env (handleSuiPayment signer)
                       = [Ev (SignAndExecute sign sign_request);
                          Ev (ConsoleError "Payment error:" error)]))
  /\ forall pre e post,
       trace env (handleSuiPayment signer) = pre ++ e :: post ->
       is_console e = true ->
       count is_sign pre = 1 /\ count is_sign post = 0.
Proof.
  unfold trace. destruct signer as [sign|].
  - rewrite SuiTransferFacts.exec_handleSuiPayment.
    destruct (env _ (SignAndExecute sign sign_request))
      as [response|error] eqn:E; cbn [snd].
    + split; [reflexivity|]. split; [cbn; lia|]. split; [cbn; lia|].
      split; [right; exists sign; auto|].
      intros pre e post Ht He. exfalso.
      eapply (AgentPageFacts.none_split is_console); [|exact Ht|exact He].
      reflexivity.
    + split; [reflexivity|]. split; [cbn; lia|]. split; [cbn; lia|].
      split; [right; exists sign; split; [reflexivity|]; right;
              exists error; auto|].
      intros pre e post Ht He.
      apply (AgentPageFacts.only_split is_console
               [Ev (SignAndExecute sign sign_request)] [])
        in Ht as (-> & _ & ->); [|reflexivity|reflexivity|exact He].
      split; reflexivity.
  - cbn [exec handleSuiPayment snd].
    split; [reflexivity|]. split; [cbn; lia|]. split; [cbn; lia|].
    split; [left; auto|].
    intros pre e post Ht He. exfalso.
    eapply (AgentPageFacts.none_split is_console); [|exact Ht|exact He].
    reflexivity.
Qed.

(** X3: the second copy of the function in the file behaves as the first
    towards a wallet that treats the two requests alike: the same error
    is thrown, or the receipts agree but for the receiver, which is each
    copy's own constant; the transactions differ in the recipient only. *)
Theorem handleSuiPayment_copies_agree
    (env : Env) (signer : option Signer) :
  (forall sign,
     env _ (SignAndExecute sign SuiTransferCopy.sign_request)
     = env _ (SignAndExecute sign sign_request)) ->
  match completion env (handleSuiPayment signer),
        completion env (SuiTransferCopy.handleSuiPayment signer) with
  | Returned r1, Returned r2 =>
      digest r1 = digest r2 /\ status r1 = status r2
      /\ amount r1 = amount r2
      /\ receiver r1 = FUND_RECEIVER_ADDRESS
      /\ receiver r2 = SuiTransferCopy.FUND_RECEIVER_ADDRESS
  | Threw e1, Threw e2 => e1 = e2
  | _, _ => False
  end
  /\ SuiTransferCopy.payment_txb
     = [SplitCoins GasCoin [PureU64 SUI_AMOUNT];
        TransferObjects [NestedResult 0 0]
          (PureString SuiTransferCopy.FUND_RECEIVER_ADDRESS)]
  /\ payment_txb
     = [SplitCoins GasCoin [PureU64 SUI_AMOUNT];
        TransferObjects [NestedResult 0 0] (PureString FUND_RECEIVER_ADDRESS)].
Proof.
  intros Hsame. split; [|split; reflexivity].
  unfold completion. destruct signer as [sign|]; [|reflexivity].
  rewrite SuiTransferFacts.exec_handleSuiPayment.
  unfold SuiTransferCopy.handleSuiPayment, await.
  cbn [bind try_catch exec]. rewrite Hsame.
  destruct (env _ (SignAndExecute sign sign_request)) as [response|error].
  - cbn. auto.
  - cbn [bind try_catch exec SuiTransferCopy.classify perform fst].
    destruct (message_lower_includes error "insufficient"); [reflexivity|].
    destruct (message_lower_includes error "reject"); reflexivity.
Qed.

End SuiTransferMore.

(** ** More on the page handlers *)
Module AgentPageMore.
Import SuiTransfer AgentPage AgentPageFacts.

(** *** Words that survive lower-casing *)

Lemma append_assoc (a b c : string) :
  ((a ++ b) ++ c = a ++ (b ++ c))%string.
Proof. induction a as [|x a IH]; simpl; [reflexivity | now rewrite IH]. Qed.

Lemma includes_inner (s a w b : string) :
  JsString.includes s (a ++ w ++ b)%string = true ->
  JsString.includes s w = true.
Proof.
  rewrite !JsStringFacts.includes_split. intros (pre & post & ->).
  exists (pre ++ a)%string, (b ++ post)%string.
  rewrite !append_assoc. reflexivity.
Qed.

Lemma includes_toLowerCase (s w : string) :
  JsString.includes s w = true ->
  JsString.includes (JsString.toLowerCase s) (JsString.toLowerCase w) = true.
Proof.
  rewrite !JsStringFacts.includes_split. intros (pre & post & ->).
  exists (JsString.toLowerCase pre), (JsString.toLowerCase post).
  now rewrite !JsStringFacts.toLowerCase_app.
Qed.

(** An error that [handleSubmit] would take for a rejection or a low
    balance is one that [handleSuiPayment] has classified before. *)
Lemma report_words_classified (error : JsError) :
  (message_includes error "User rejected" = true ->
   message_lower_includes error "reject" = true)
  /\ (message_includes error "Insufficient" = true ->
      message_lower_includes error "insufficient" = true).
Proof.
  unfold message_includes, message_lower_includes.
  destruct (err_message error) as [m|]; [|split; discriminate].
  split; intros H; apply includes_toLowerCase in H.
  - exact (includes_inner _ "user " "reject" "ed" H).
  - exact H.
Qed.

(** *** What the [catch] block shows *)

Lemma exec_report_cases (env : Env) (error : JsError) :
  exists msg,
    exec env (report error)
    = (Returned tt, [Ev (ConsoleError "Error:" error); Ev (ToastError msg)])
    /\ (message_includes error "Payment cancelled" = true ->
        msg = "Payment cancelled by user")
    /\ (message_includes error "Payment cancelled" = false ->
        message_includes error "User rejected" = true ->
        msg = "Transaction rejected by user")
    /\ (message_includes error "Payment cancelled" = false ->
        message_includes error "User rejected" = false ->
        message_includes error "Insufficient" = true ->
        msg = "Insufficient SUI balance")
    /\ (message_includes error "Payment cancelled" = false ->
        message_includes error "User rejected" = false ->
        message_includes error "Insufficient" = false ->
        msg = match err_message error with
              | Some m => if JsString.falsy m then fallback_message else m
              | None => fallback_message
              end).
Proof.
  unfold report. cbn [bind perform exec].
  destruct (message_includes error "Payment cancelled").
  { eexists. split; [cbn; unit_answer env; reflexivity|].
    repeat split; intros; congruence. }
  destruct (message_includes error "User rejected").
  { eexists. split; [cbn; unit_answer env; reflexivity|].
    repeat split; intros; congruence. }
  destruct (message_includes error "Insufficient").
  { eexists. split; [cbn; unit_answer env; reflexivity|].
    repeat split; intros; congruence. }
  eexists. split; [cbn; unit_answer env; reflexivity|].
  repeat split; intros; congruence.
Qed.

Section Attempt.

Variables (B : string) (env : Env) (p : Props) (a : Account) (sign : Signer).
Hypothesis Hconnected : connected p = true.
Hypothesis Haccount : account p = Some a.
Hypothesis Hsigner : signAndExecuteTransactionBlock p = Some sign.
Hypothesis Hfields : required_fields_filled (props_formData p).

(** Confirm, and the wallet rejects: the error the payment throws and
    the message shown for it. *)
Lemma exec_payment_failed_with (error error' : JsError) (msg : string) :
  env _ confirm_prompt = Confirm ->
  env _ (SignAndExecute sign sign_request) = Rejected error ->
  completion env (handleSuiPayment (Some sign)) = Threw error' ->
  exec env (report error')
  = (Returned tt, [Ev (ConsoleError "Error:" error'); Ev (ToastError msg)]) ->
  exec env (handleSubmit B p) =
  (Returned tt,
   [Ev PreventDefault; Ev (SetLoading true); Ev confirm_prompt;
    Ev (ToastLoading "Processing payment...");
    Ev (SignAndExecute sign sign_request);
    Ev (ConsoleError "Payment error:" error);
    Ev (ConsoleError "Error:" error');
    Ev (ToastError msg);
    Ev (SetLoading false)]).
Proof.
  intros Hc Hs Hpay Hrep.
  rewrite (exec_handleSubmit_accepted B env p a sign
             Hconnected Haccount Hsigner Hfields).
  rewrite exec_try_catch, (exec_attempt B env p sign Hsigner), Hc.
  cbv zeta. unfold completion in Hpay.
  rewrite SuiTransferFacts.exec_handleSuiPayment, Hs in Hpay |- *.
  cbn [fst] in Hpay. injection Hpay as Hpay. rewrite Hpay, Hrep.
  reflexivity.
Qed.

End Attempt.

(** *** A payment that the wallet rejects, end to end *)

(** X4: when the wallet rejects with a message that contains "insufficient"
    in any letter case, the page shows exactly one error, "Insufficient
    SUI balance"; nothing is posted, the signer was called once, and the
    form and the preview stay as entered with the loading flag down. *)
Theorem low_balance_reported
    (B : string) (env : Env) (p : Props) (a : Account) (sign : Signer)
    (error : JsError) :
  connected p = true ->
  account p = Some a ->
  signAndExecuteTransactionBlock p = Some sign ->
  required_fields_filled (props_formData p) ->
  env _ confirm_prompt = Confirm ->
  env _ (SignAndExecute sign sign_request) = Rejected error ->
  mentions error "insufficient" ->
  toast_errors (trace env (handleSubmit B p)) = ["Insufficient SUI balance"]
  /\ count is_sign (trace env (handleSubmit B p)) = 1
  /\ count is_post (trace env (handleSubmit B p)) = 0
  /\ forall st,
       final_state st (trace env (handleSubmit B p))
       = {| loading := false; formData := formData st;
            previewUrl := previewUrl st |}.
Proof.
  intros Hc Ha Hs Hf Hconfirm Hrej Hm.
  apply (SuiTransferFacts.mentions_lower_includes error "insufficient" eq_refl)
    in Hm.
  assert (Hpay : completion env (handleSuiPayment (Some sign))
                 = Threw (new_Error "Insufficient SUI balance")).
  { unfold completion.
    rewrite SuiTransferFacts.exec_handleSuiPayment, Hrej, Hm. reflexivity. }
  destruct (exec_report_cases env (new_Error "Insufficient SUI balance"))
    as (msg & Hrep & _ & _ & Hmsg & _).
  rewrite (Hmsg eq_refl eq_refl eq_refl) in Hrep.
  unfold trace.
  rewrite (exec_payment_failed_with B env p a sign Hc Ha Hs Hf
             error _ _ Hconfirm Hrej Hpay Hrep).
  cbn. auto.
Qed.

(** X5: when the wallet rejects with a message that contains "reject" in any
    letter case, and not "insufficient", the page shows exactly one
    error, "Transaction rejected by user"; nothing is posted and the form
    and the preview stay as entered with the loading flag down. *)
Theorem wallet_rejection_reported
    (B : string) (env : Env) (p : Props) (a : Account) (sign : Signer)
    (error : JsError) :
  connected p = true ->
  account p = Some a ->
  signAndExecuteTransactionBlock p = Some sign ->
  required_fields_filled (props_formData p) ->
  env _ confirm_prompt = Confirm ->
  env _ (SignAndExecute sign sign_request) = Rejected error ->
  ~ mentions error "insufficient" ->
  mentions error "reject" ->
  toast_errors (trace env (handleSubmit B p))
  = ["Transaction rejected by user"]
  /\ count is_sign (trace env (handleSubmit B p)) = 1
  /\ count is_post (trace env (handleSubmit B p)) = 0
  /\ forall st,
       final_state st (trace env (handleSubmit B p))
       = {| loading := false; formData := formData st;
            previewUrl := previewUrl st |}.
Proof.
  intros Hc Ha Hs Hf Hconfirm Hrej Hni Hm.
  apply (SuiTransferFacts.mentions_lower_includes error "reject" eq_refl)
    in Hm.
  assert (Hi : message_lower_includes error "insufficient" = false).
  { destruct (message_lower_includes error "insufficient") eqn:E;
      [|reflexivity].
    exfalso. apply Hni.
    now apply (SuiTransferFacts.mentions_lower_includes
                 error "insufficient" eq_refl). }
  assert (Hpay : completion env (handleSuiPayment (Some sign))
                 = Threw (new_Error "User rejected the transaction")).
  { unfold completion.
    rewrite SuiTransferFacts.exec_handleSuiPayment, Hrej, Hi, Hm.
    reflexivity. }
  destruct (exec_report_cases env (new_Error "User rejected the transaction"))
    as (msg & Hrep & _ & Hmsg & _).
  rewrite (Hmsg eq_refl eq_refl) in Hrep.
  unfold trace.
  rewrite (exec_payment_failed_with B env p a sign Hc Ha Hs Hf
             error _ _ Hconfirm Hrej Hpay Hrep).
  cbn. auto.
Qed.

(** X6: when the wallet rejects with an error that mentions neither word,
    the error itself reaches the page: the one error shown is "Payment
    cancelled by user" if its message includes "Payment cancelled", else
    its message as it is, or the fallback message when the message is
    absent or empty. *)
Theorem unknown_wallet_error_reported
    (B : string) (env : Env) (p : Props) (a : Account) (sign : Signer)
    (error : JsError) :
  connected p = true ->
  account p = Some a ->
  signAndExecuteTransactionBlock p = Some sign ->
  required_fields_filled (props_formData p) ->
  env _ confirm_prompt = Confirm ->
  env _ (SignAndExecute sign sign_request) = Rejected error ->
  ~ mentions error "insufficient" ->
  ~ mentions error "reject" ->
  toast_errors (trace env (handleSubmit B p))
  = [if message_includes error "Payment cancelled"
     then "Payment cancelled by user"
     else match err_message error with
          | Some m => if JsString.falsy m then fallback_message else m
          | None => fallback_message
          end]
  /\ count is_post (trace env (handleSubmit B p)) = 0
  /\ forall st,
       final_state st (trace env (handleSubmit B p))
       = {| loading := false; formData := formData st;
            previewUrl := previewUrl st |}.
Proof.
  intros Hc Ha Hs Hf Hconfirm Hrej Hni Hnr.
  assert (Hi : message_lower_includes error "insufficient" = false).
  { destruct (message_lower_includes error "insufficient") eqn:E;
      [|reflexivity].
    exfalso. apply Hni.
    now apply (SuiTransferFacts.mentions_lower_includes
                 error "insufficient" eq_refl). }
  assert (Hr : message_lower_includes error "reject" = false).
  { destruct (message_lower_includes error "reject") eqn:E; [|reflexivity].
    exfalso. apply Hnr.
    now apply (SuiTransferFacts.mentions_lower_includes
                 error "reject" eq_refl). }
  assert (Hpay : completion env (handleSuiPayment (Some sign)) = Threw error).
  { unfold completion.
    rewrite SuiTransferFacts.exec_handleSuiPayment, Hrej, Hi, Hr.
    reflexivity. }
  destruct (report_words_classified error) as [Hw1 Hw2].
  assert (Hu : message_includes error "User rejected" = false).
  { destruct (message_includes error "User rejected"); [|reflexivity].
    specialize (Hw1 eq_refl). congruence. }
  assert (Hn : message_includes error "Insufficient" = false).
  { destruct (message_includes error "Insufficient"); [|reflexivity].
    specialize (Hw2 eq_refl). congruence. }
  destruct (exec_report_cases env error)
    as (msg & Hrep & Hm1 & _ & _ & Hm4).
  unfold trace.
  rewrite (exec_payment_failed_with B env p a sign Hc Ha Hs Hf
             error _ _ Hconfirm Hrej Hpay Hrep).
  destruct (message_includes error "Payment cancelled").
  - rewrite (Hm1 eq_refl). cbn. auto.
  - rewrite (Hm4 eq_refl Hu Hn). cbn. auto.
Qed.

(** *** A backend failure, as it is shown *)

(** X7: when the POST fails after a successful payment, the one error shown
    is picked from the backend error by the same three substring tests:
    a message that includes "Insufficient" (and neither "Payment
    cancelled" nor "User rejected") is shown as "Insufficient SUI
    balance"; a message with none of the three is shown as it is, or as
    the fallback message when it is absent or empty. *)
Theorem backend_error_reported
    (B : string) (env : Env) (p : Props) (a : Account) (sign : Signer)
    (response : SignResponse) (error : JsError) :
  connected p = true ->
  account p = Some a ->
  signAndExecuteTransactionBlock p = Some sign ->
  required_fields_filled (props_formData p) ->
  env _ confirm_prompt = Confirm ->
  env _ (SignAndExecute sign sign_request) = Fulfilled response ->
  env _ (post_request B
           (build_submitData (props_formData p) (address a)
              (resp_digest response))) = Rejected error ->
  message_includes error "Payment cancelled" = false ->
  message_includes error "User rejected" = false ->
  toast_errors (trace env (handleSubmit B p))
  = [if message_includes error "Insufficient"
     then "Insufficient SUI balance"
     else match err_message error with
          | Some m => if JsString.falsy m then fallback_message else m
          | None => fallback_message
          end].
Proof.
  intros Hc Ha Hs Hf Hconfirm Hsigned Hposted Hn1 Hn2.
  destruct (exec_report_cases env error)
    as (msg & Hrep & _ & _ & Hm3 & Hm4).
  unfold trace.
  rewrite (exec_handleSubmit_accepted B env p a sign Hc Ha Hs Hf).
  rewrite exec_try_catch, (exec_attempt B env p sign Hs), Hconfirm.
  cbv zeta. rewrite SuiTransferFacts.exec_handleSuiPayment, Hsigned.
  rewrite (exec_afterPayment B env p a Ha) by reflexivity.
  cbv zeta. cbn [digest]. rewrite Hposted, Hrep.
  destruct (message_includes error "Insufficient").
  - rewrite (Hm3 Hn1 Hn2 eq_refl). reflexivity.
  - rewrite (Hm4 Hn1 Hn2 eq_refl). reflexivity.
Qed.

(** *** Every run of [handleSubmit] *)

(** The five shapes a run can take. *)
Lemma handleSubmit_shapes (B : string) (env : Env) (p : Props) :
  (~ accepted p
   /\ exists msg,
        exec env (handleSubmit B p)
        = (Returned tt, [Ev PreventDefault; Ev (ToastError msg)]))
  \/ (accepted p /\ env _ confirm_prompt = Cancel
      /\ exec env (handleSubmit B p)
         = (Returned tt,
            [Ev PreventDefault; Ev (SetLoading true); Ev confirm_prompt;
             Ev (ConsoleError "Error:" (new_Error "Payment cancelled"));
             Ev (ToastError "Payment cancelled by user");
             Ev (SetLoading false)]))
  \/ (accepted p /\ env _ confirm_prompt = Confirm
      /\ exists sign error error' msg,
           signAndExecuteTransactionBlock p = Some sign
           /\ env _ (SignAndExecute sign sign_request) = Rejected error
           /\ exec env (handleSubmit B p)
              = (Returned tt,
                 [Ev PreventDefault; Ev (SetLoading true); Ev confirm_prompt;
                  Ev (ToastLoading "Processing payment...");
                  Ev (SignAndExecute sign sign_request);
                  Ev (ConsoleError "Payment error:" error);
                  Ev (ConsoleError "Error:" error');
                  Ev (ToastError msg);
                  Ev (SetLoading false)]))
  \/ (accepted p /\ env _ confirm_prompt = Confirm
      /\ exists a sign response error msg,
           account p = Some a
           /\ signAndExecuteTransactionBlock p = Some sign
           /\ env _ (SignAndExecute sign sign_request) = Fulfilled response
           /\ env _ (post_request B
                       (build_submitData (props_formData p) (address a)
                          (resp_digest response))) = Rejected error
           /\ exec env (handleSubmit B p)
              = (Returned tt,
                 [Ev PreventDefault; Ev (SetLoading true); Ev confirm_prompt;
                  Ev (ToastLoading "Processing payment...");
                  Ev (SignAndExecute sign sign_request);
                  Ev (ToastSuccess "Payment successful!"
                        (Some (env _ (ToastLoading "Processing payment..."))));
                  Ev (ToastLoading "Submitting proposal...");
                  Ev (post_request B
                        (build_submitData (props_formData p) (address a)
                           (resp_digest response)));
                  Ev (ConsoleError "Error:" error);
                  Ev (ToastError msg);
                  Ev (SetLoading false)]))
  \/ (accepted p /\ env _ confirm_prompt = Confirm
      /\ exists a sign response ack,
           account p = Some a
           /\ signAndExecuteTransactionBlock p = Some sign
           /\ env _ (SignAndExecute sign sign_request) = Fulfilled response
           /\ env _ (post_request B
                       (build_submitData (props_formData p) (address a)
                          (resp_digest response))) = Fulfilled ack
           /\ exec env (handleSubmit B p)
              = (Returned tt,
                 [Ev PreventDefault; Ev (SetLoading true); Ev confirm_prompt;
                  Ev (ToastLoading "Processing payment...");
                  Ev (SignAndExecute sign sign_request);
                  Ev (ToastSuccess "Payment successful!"
                        (Some (env _ (ToastLoading "Processing payment..."))));
                  Ev (ToastLoading "Submitting proposal...");
                  Ev (post_request B
                        (build_submitData (props_formData p) (address a)
                           (resp_digest response)));
                  Ev (ToastSuccess "Proposal submitted successfully!"
                        (Some (env _ (ToastLoading "Submitting proposal..."))));
                  Ev (SetFormData initialFormData);
                  Ev (SetPreviewUrl None);
                  Ev (Navigate "/");
                  Ev (SetLoading false)])).
Proof.
  assert (Hrefuse :
            connected p = false \/ account p = None
            \/ signAndExecuteTransactionBlock p = None
            \/ ~ required_fields_filled (props_formData p) ->
            ~ accepted p
            /\ exists msg,
                 exec env (handleSubmit B p)
                 = (Returned tt, [Ev PreventDefault; Ev (ToastError msg)])).
  { intros H. split.
    - intros (H1 & H2 & H3 & H4).
      destruct H as [H|[H|[H|H]]]; congruence.
    - destruct (exec_handleSubmit_refused B env p H) as (msg & _ & Hex).
      eauto. }
  destruct (connected p) eqn:Hc; [|left; auto].
  destruct (account p) as [a|] eqn:Ha; [|left; auto].
  destruct (signAndExecuteTransactionBlock p) as [sign|] eqn:Hs; [|left; auto].
  destruct (required_fields_dec (props_formData p)) as [Hf|Hf]; [|left; auto 6].
  assert (Hacc : accepted p).
  { unfold accepted. rewrite Hc, Ha, Hs.
    split; [reflexivity|]. split; [discriminate|].
    split; [discriminate | exact Hf]. }
  right. destruct (env _ confirm_prompt) eqn:Hprompt.
  2:{ left. split; [exact Hacc|]. split; [reflexivity|].
      exact (exec_cancelled B env p a sign Hc Ha Hs Hf Hprompt). }
  right. destruct (env _ (SignAndExecute sign sign_request))
    as [response|error] eqn:Hsigned.
  2:{ left. split; [exact Hacc|]. split; [reflexivity|].
      destruct (exec_payment_failed B env p a sign Hc Ha Hs Hf error
                  Hprompt Hsigned) as (error' & msg & Hex).
      exists sign, error, error', msg. auto. }
  right. destruct (env _ (post_request B
                            (build_submitData (props_formData p) (address a)
                               (resp_digest response))))
    as [ack|error] eqn:Hposted.
  - right. split; [exact Hacc|]. split; [reflexivity|].
    exists a, sign, response, ack.
    pose proof (exec_submitted B env p a sign Hc Ha Hs Hf response ack
                  Hprompt Hsigned Hposted) as Hex.
    auto 6.
  - left. split; [exact Hacc|]. split; [reflexivity|].
    destruct (exec_post_failed B env p a sign Hc Ha Hs Hf response error
                Hprompt Hsigned Hposted) as [msg Hex].
    exists a, sign, response, error, msg. auto 6.
Qed.


(** X9: nothing is asked or sent twice: whatever the user, the wallet and
    the backend answer, a run opens the confirmation prompt at most once,
    calls the signer at most once and posts at most once. *)
Theorem handleSubmit_no_retry (B : string) (env : Env) (p : Props) :
  count is_prompt (trace env (handleSubmit B p)) <= 1
  /\ count is_sign (trace env (handleSubmit B p)) <= 1
  /\ count is_post (trace env (handleSubmit B p)) <= 1.
Proof.
  unfold trace.
  destruct (handleSubmit_shapes B env p)
    as [(_ & msg & H)
       |[(_ & _ & H)
        |[(_ & _ & s & e & e' & msg & _ & _ & H)
         |[(_ & _ & a & s & r & e & msg & _ & _ & _ & _ & H)
          |(_ & _ & a & s & r & ack & _ & _ & _ & _ & H)]]]];
    rewrite H; cbn; repeat split; lia.
Qed.


(** X11: what a run does to the component state is one of three things:
    nothing at all (refused at a guard, with no prompt shown); only the
    loading flag down, with form and preview as they were and no
    navigation; or the initial state with one navigation to "/", and
    that only when the backend acknowledged the POST. *)
Theorem handleSubmit_state_effect
    (B : string) (env : Env) (p : Props) (st : CompState) :
  (final_state st (trace env (handleSubmit B p)) = st
   /\ count is_prompt (trace env (handleSubmit B p)) = 0
   /\ count (is_navigate "/") (trace env (handleSubmit B p)) = 0)
  \/ (final_state st (trace env (handleSubmit B p))
      = {| loading := false; formData := formData st;
           previewUrl := previewUrl st |}
      /\ count (is_navigate "/") (trace env (handleSubmit B p)) = 0)
  \/ (final_state st (trace env (handleSubmit B p)) = initialState
      /\ count (is_navigate "/") (trace env (handleSubmit B p)) = 1
      /\ exists a sign response ack,
           account p = Some a
           /\ signAndExecuteTransactionBlock p = Some sign
           /\ env _ (SignAndExecute sign sign_request) = Fulfilled response
           /\ env _ (post_request B
                       (build_submitData (props_formData p) (address a)
                          (resp_digest response))) = Fulfilled ack).
Proof.
  unfold trace.
  destruct (handleSubmit_shapes B env p)
    as [(_ & msg & H)
       |[(_ & _ & H)
        |[(_ & _ & s & e & e' & msg & _ & _ & H)
         |[(_ & _ & a & s & r & e & msg & _ & _ & _ & _ & H)
          |(_ & _ & a & s & r & ack & Ha & Hs & Hsg & Hpo & H)]]]];
    rewrite H; cbn [snd].
  - left. cbn. auto.
  - right; left. cbn. auto.
  - right; left. cbn. auto.
  - right; left. cbn. auto.
  - right; right. cbn. repeat split. exists a, s, r, ack. auto.
Qed.

(** X12: the guards of [handleSubmit] are tried in a fixed order: a wallet
    that is not connected or has no account is reported first, whatever
    else is missing; then a missing signing function; a missing field is
    reported only when the wallet is in order. *)
Theorem handleSubmit_guard_order (B : string) (env : Env) (p : Props) :
  (connected p = false \/ account p = None ->
   trace env (handleSubmit B p)
   = [Ev PreventDefault; Ev (ToastError "Please connect your wallet first!")])
  /\ (connected p = true -> account p <> None ->
      signAndExecuteTransactionBlock p = None ->
      trace env (handleSubmit B p)
      = [Ev PreventDefault;
         Ev (ToastError "Wallet connection not initialized properly")])
  /\ (connected p = true -> account p <> None ->
      signAndExecuteTransactionBlock p <> None ->
      ~ required_fields_filled (props_formData p) ->
      trace env (handleSubmit B p)
      = [Ev PreventDefault;
         Ev (ToastError
               "Please fill in all required fields (Name, Twitter, Description)")]).
Proof.
  unfold trace, handleSubmit. cbn [bind perform exec].
  repeat split.
  - intros [H|H]; rewrite H; [|rewrite orb_true_r]; reflexivity.
  - intros Hc Ha Hs. rewrite Hc, Hs.
    destruct (account p); [reflexivity | congruence].
  - intros Hc Ha Hs Hf. rewrite Hc.
    destruct (account p); [|congruence].
    destruct (signAndExecuteTransactionBlock p); [|congruence].
    cbn [negb orb].
    destruct (JsString.falsy (name (props_formData p))
              || JsString.falsy (twitter (props_formData p))
              || JsString.falsy (description (props_formData p))) eqn:E;
      [reflexivity|].
    exfalso. apply Hf.
    apply orb_false_iff in E as [E E3]. apply orb_false_iff in E as [E1 E2].
    repeat split; intros Hs0.
    + rewrite Hs0 in E1. discriminate.
    + rewrite Hs0 in E2. discriminate.
    + rewrite Hs0 in E3. discriminate.
Qed.


End AgentPageMore.

(** ** The picture and the multipart body *)
Module AgentPageForm.
Import SuiTransfer AgentPage AgentPageFacts.


(** X15: an accepted file is stored in a form whose text fields are those of
    the render the handler belongs to, whatever the state holds by then,
    and the preview becomes what the file reader yields; when the read
    fails that is [null], and a preview shown before is lost while the
    file stays attached. *)
Theorem handleImageUpload_state
    (env : Env) (captured : FormState) (file : File) (st : CompState) :
  acceptable_image file ->
  final_state st (trace env (handleImageUpload captured (Some file)))
  = {| loading := loading st;
       formData := {| name := name captured;
                      twitter := twitter captured;
                      website := website captured;
                      description := description captured;
                      profilePicture := Some file |};
       previewUrl := env _ (ReadAsDataURL file) |}
  /\ (env _ (ReadAsDataURL file) = None ->
      previewUrl
        (final_state st (trace env (handleImageUpload captured (Some file))))
      = None
      /\ profilePicture
           (formData
              (final_state st
                 (trace env (handleImageUpload captured (Some file)))))
         = Some file).
Proof.
  intros Hok. apply acceptable_image_tests in Hok as [Hsize Htype].
  unfold trace, handleImageUpload. rewrite Hsize, Htype. cbn.
  split; [reflexivity|]. intros ->. auto.
Qed.

(** X16: the multipart body has six text parts, under six different keys,
    and the picture as a seventh part exactly when one is attached; the
    creator wallet and the payment digest travel under their own keys,
    and no other part is a file. *)
Theorem build_submitData_parts
    (formData : FormState) (creator_wallet payment_tx : string) :
  let d := build_submitData formData creator_wallet payment_tx in
  NoDup (keys d)
  /\ List.length d
     = match profilePicture formData with Some _ => 7 | None => 6 end
  /\ In ("creator_wallet", TextField creator_wallet) d
  /\ In ("payment_tx", TextField payment_tx) d
  /\ (forall file,
        In ("profilePicture", FileField file) d
        <-> profilePicture formData = Some file)
  /\ (forall key file, In (key, FileField file) d -> key = "profilePicture").
Proof.
  unfold build_submitData, append, keys.
  destruct (profilePicture formData) as [picture|]; cbn;
    (split; [|split; [|split; [|split; [|split]]]]).
  - repeat (constructor; [cbn; intuition discriminate|]). constructor.
  - reflexivity.
  - auto 10.
  - auto 10.
  - intros file. split.
    + intros H. repeat (destruct H as [H|H]; [discriminate H|]).
      destruct H as [H|[]]. injection H as ->. reflexivity.
    + intros H. injection H as ->. auto 10.
  - intros key file H. repeat (destruct H as [H|H]; [discriminate H|]).
    destruct H as [H|[]]. injection H as <- _. reflexivity.
  - repeat (constructor; [cbn; intuition discriminate|]). constructor.
  - reflexivity.
  - auto 10.
  - auto 10.
  - intros file. split; [|discriminate].
    intros H. repeat (destruct H as [H|H]; [discriminate H|]).
    contradiction.
  - intros key file H. repeat (destruct H as [H|H]; [discriminate H|]).
    contradiction.
Qed.

(** A file part of the body is the picture attached to the form. *)
Lemma build_submitData_parts_in
    (formData : FormState) (creator_wallet payment_tx key : string)
    (file : File) :
  In (key, FileField file)
    (build_submitData formData creator_wallet payment_tx) ->
  profilePicture formData = Some file.
Proof.
  unfold build_submitData, append.
  destruct (profilePicture formData) as [picture|]; cbn; intros H;
    repeat (destruct H as [H|H]; [discriminate H|]).
  - destruct H as [H|[]]. injection H as _ ->. reflexivity.
  - contradiction.
Qed.

End AgentPageForm.

(** ** More on the page under the event loop *)
Module EventLoopMore.
Import SuiTransfer AgentPage AgentPageFacts EventLoop EventLoopFacts.

(** *** Forms that handlers store *)

Lemma stores_bind {A B : Type} (p : prog A) (f : A -> prog B) :
  stores_ok_pictures p -> (forall a, stores_ok_pictures (f a)) ->
  stores_ok_pictures (bind p f).
Proof.
  intros Hp Hf. induction p as [a|e|R o k IH]; simpl in *; auto.
  destruct Hp as [Ho Hk]. split; auto.
Qed.

Lemma stores_try_catch {A : Type} (p : prog A) (h : JsError -> prog A) :
  stores_ok_pictures p -> (forall e, stores_ok_pictures (h e)) ->
  stores_ok_pictures (try_catch p h).
Proof.
  intros Hp Hh. induction p as [a|e|R o k IH]; simpl in *; auto.
  destruct Hp as [Ho Hk]. split; auto.
Qed.

Lemma stores_try_finally {A : Type} (p : prog A) (f : prog unit) :
  stores_ok_pictures p -> stores_ok_pictures f ->
  stores_ok_pictures (try_finally p f).
Proof.
  intros Hp Hf. induction p as [a|e|R o k IH]; simpl in *.
  - apply stores_bind; simpl; auto.
  - apply stores_bind; simpl; auto.
  - destruct Hp as [Ho Hk]. split; auto.
Qed.

Lemma picture_ok_initial : picture_ok initialFormData.
Proof. intros file H. discriminate H. Qed.

Lemma stores_handleSuiPayment (signer : option Signer) :
  stores_ok_pictures (handleSuiPayment signer).
Proof.
  destruct signer as [sign|]; simpl; [|exact I].
  split; [exact I|]. intros [response|error]; simpl; [exact I|].
  split; [exact I|]. intros _.
  destruct (message_lower_includes error "insufficient"); [exact I|].
  destruct (message_lower_includes error "reject"); exact I.
Qed.

Lemma stores_report (error : JsError) : stores_ok_pictures (report error).
Proof.
  unfold report. simpl. split; [exact I|]. intros _.
  destruct (message_includes error "Payment cancelled"); [simpl; auto|].
  destruct (message_includes error "User rejected"); [simpl; auto|].
  destruct (message_includes error "Insufficient"); simpl; auto.
Qed.

Lemma stores_afterPayment (B : string) (p : Props) (r : Receipt)
    (id : ToastId) :
  stores_ok_pictures (afterPayment B p r id).
Proof.
  unfold afterPayment. destruct (String.eqb (status r) "success"); [|exact I].
  unfold submitProposal. simpl. split; [exact I|]. intros _.
  split; [exact I|]. intros id2.
  destruct (account p) as [a|]; simpl; [|exact I].
  split; [exact I|]. intros [ack|error]; simpl; [|exact I].
  split; [exact I|]. intros _.
  split; [exact picture_ok_initial|]. intros _.
  split; [exact I|]. intros _.
  split; [exact I|]. intros _. exact I.
Qed.

Lemma stores_attempt (B : string) (p : Props) :
  stores_ok_pictures (attempt B p).
Proof.
  unfold attempt, confirmation. simpl. split; [exact I|].
  intros [|]; simpl; [|exact I].
  split; [exact I|]. intros id.
  apply stores_bind; [apply stores_handleSuiPayment|].
  intros r. apply stores_afterPayment.
Qed.

Lemma stores_handleSubmit (B : string) (p : Props) :
  stores_ok_pictures (handleSubmit B p).
Proof.
  unfold handleSubmit.
  cbn [bind perform stores_ok_pictures].
  split; [exact I|]. intros _.
  destruct (negb (connected p) ||
            match account p with Some _ => false | None => true end);
    [cbn; auto|].
  destruct (signAndExecuteTransactionBlock p); [|cbn; auto].
  destruct (JsString.falsy (name (props_formData p))
            || JsString.falsy (twitter (props_formData p))
            || JsString.falsy (description (props_formData p)));
    [cbn; auto|].
  cbn [bind perform stores_ok_pictures].
  split; [exact I|]. intros _.
  apply stores_try_finally; [|cbn; auto].
  apply stores_try_catch; [apply stores_attempt | apply stores_report].
Qed.

(** The only form with a picture that [handleImageUpload] stores is one
    whose picture passed the two tests. *)
Lemma stores_handleImageUpload (captured : FormState) (file : option File) :
  stores_ok_pictures (handleImageUpload captured file).
Proof.
  destruct file as [file|]; simpl; [|exact I].
  destruct (MAX_IMAGE_SIZE <? size file)%N eqn:Hsize; [simpl; auto|].
  destruct (JsString.startsWith (type file) "image/") eqn:Htype;
    simpl; [|auto].
  split; [|auto].
  intros file' H. simpl in H. injection H as <-.
  apply acceptable_image_tests. auto.
Qed.

Lemma advance_stores (env : Env) (p : prog unit) (st st' : CompState)
    (s : option (prog unit)) :
  stores_ok_pictures p ->
  picture_ok (formData st) ->
  advance env p st = (st', s) ->
  picture_ok (formData st')
  /\ Forall (fun q => stores_ok_pictures q) (suspended s).
Proof.
  revert st. induction p as [a|e|R o k IH]; intros st Hp Hst Ha; simpl in *.
  - injection Ha as <- <-. auto.
  - injection Ha as <- <-. auto.
  - destruct Hp as [Ho Hk]. destruct (is_async o) eqn:Eo.
    + injection Ha as <- <-. split; [exact Hst|].
      constructor; [|constructor]. simpl. auto.
    + apply (IH (env R o) (apply_op o st) (Hk _)); [|exact Ha].
      destruct o; simpl; auto.
Qed.

(** The picture invariant holds on mount and is kept by every step. *)
Lemma pictures_reachable (B : string) (w : Props) (pg : Page) :
  reachable B w pg ->
  picture_ok (formData (comp pg))
  /\ Forall (fun q => stores_ok_pictures q) (submissions pg)
  /\ Forall (fun q => stores_ok_pictures q) (uploads pg).
Proof.
  induction 1 as [|pg pg' _ IH Hstep].
  { split; [exact picture_ok_initial | split; constructor]. }
  destruct IH as (Hst & Hsub & Hup).
  destruct Hstep as
    [env pg st s Hen Hadv
    |env pg l1 l2 R o k r st s Hasync Hsplit Hadv
    |env pg file st s Hadv
    |env pg l1 l2 R o k r st s Hasync Hsplit Hadv
    |pg f Hpic
    |pg w']; simpl.
  - destruct (advance_stores env _ _ _ _ (stores_handleSubmit B _) Hst Hadv)
      as [H1 H2].
    split; [exact H1|]. split; [apply Forall_app; auto | exact Hup].
  - rewrite Hsplit in Hsub. apply Forall_app in Hsub as [Hl1 Hl2].
    inversion Hl2 as [|x l Hx Hl2' Heq]; subst.
    destruct Hx as [_ Hk].
    destruct (advance_stores env _ _ _ _ (Hk r) Hst Hadv) as [H1 H2].
    split; [exact H1|].
    split; [apply Forall_app; split; [exact Hl1 | apply Forall_app; auto]
           | exact Hup].
  - destruct (advance_stores env _ _ _ _
                (stores_handleImageUpload _ file) Hst Hadv) as [H1 H2].
    split; [exact H1|]. split; [exact Hsub | apply Forall_app; auto].
  - rewrite Hsplit in Hup. apply Forall_app in Hup as [Hl1 Hl2].
    inversion Hl2 as [|x l Hx Hl2' Heq]; subst.
    destruct Hx as [_ Hk].
    destruct (advance_stores env _ _ _ _ (Hk r) Hst Hadv) as [H1 H2].
    split; [exact H1|].
    split; [exact Hsub
           | apply Forall_app; split; [exact Hl1 | apply Forall_app; auto]].
  - split; [|auto]. intros file Hf. apply Hst. congruence.
  - auto.
Qed.

(** X17: on every page the event loop reaches, a picture attached to the
    form is at most 5 MiB with a MIME type that begins with "image/"; so
    the multipart body built from the form never carries another file. *)
Theorem attached_picture_acceptable (B : string) (w : Props) (pg : Page) :
  reachable B w pg ->
  picture_ok (formData (comp pg))
  /\ forall creator_wallet payment_tx key file,
       In (key, FileField file)
         (build_submitData (formData (comp pg)) creator_wallet payment_tx) ->
       acceptable_image file.
Proof.
  intros Hr. destruct (pictures_reachable B w pg Hr) as [Hok _].
  split; [exact Hok|].
  intros creator_wallet payment_tx key file Hin.
  pose proof (AgentPageForm.build_submitData_parts_in
                (formData (comp pg)) creator_wallet payment_tx key file Hin)
    as Hpic.
  exact (Hok file Hpic).
Qed.

(** X18: on every page the event loop reaches, the submit button reads
    "Processing..." exactly while a submission is in flight, and "Submit
    Proposal (1 SUI)" otherwise. *)
Theorem submit_label_tracks_flight (B : string) (w : Props) (pg : Page) :
  reachable B w pg ->
  (AgentPageView.submit_label (loading (comp pg)) = "Processing..."
   <-> submissions pg <> [])
  /\ (AgentPageView.submit_label (loading (comp pg))
      = "Submit Proposal (1 SUI)"
      <-> submissions pg = []).
Proof.
  intros Hr. destruct (invariant_reachable B w pg Hr) as [_ Hsub].
  unfold AgentPageView.submit_label.
  destruct Hsub as [[Hnil Hl] | (q & Hq & Hl & _)]; rewrite Hl.
  - rewrite Hnil. split; split; try discriminate; congruence.
  - rewrite Hq. split; split; try discriminate; congruence.
Qed.

End EventLoopMore.

(** ** Further runs, through the further properties *)
Module WorkedAttemptMore.
Import SuiTransfer AgentPage EventLoop.


Lemma example_filled_fields : required_fields_filled example_form.
Proof. repeat split; discriminate. Defined.

Lemma example_image_acceptable : acceptable_image example_image.
Proof.
  split; [intros H; discriminate H | exists "png"; reflexivity].
Defined.

Lemma example_waiting_reachable :
  reachable example_backend example_props example_waiting.
Proof.
  apply (reachable_step example_backend example_props example_filled).
  - apply (reachable_step example_backend example_props (mount example_props)).
    + apply reachable_mount.
    + exact (step_edit example_backend (mount example_props) example_form
               eq_refl).
  - exact (step_submit example_backend example_env example_filled
             _ _ eq_refl eq_refl).
Defined.

Lemma example_uploading_reachable :
  reachable example_backend example_props example_uploading.
Proof.
  apply (reachable_step example_backend example_props (mount example_props)).
  - apply reachable_mount.
  - exact (step_upload example_backend example_env (mount example_props)
             (Some example_image) _ _ eq_refl).
Defined.

(** Both copies of the payment, against the example wallet. *)
Lemma handleSuiPayment_copies_agree_witness :
  match completion example_env (handleSuiPayment (Some example_signer)),
        completion example_env
          (SuiTransferCopy.handleSuiPayment (Some example_signer)) with
  | Returned r1, Returned r2 =>
      digest r1 = digest r2 /\ status r1 = status r2
      /\ amount r1 = amount r2
      /\ receiver r1 = FUND_RECEIVER_ADDRESS
      /\ receiver r2 = SuiTransferCopy.FUND_RECEIVER_ADDRESS
  | Threw e1, Threw e2 => e1 = e2
  | _, _ => False
  end
  /\ SuiTransferCopy.payment_txb
     = [SplitCoins GasCoin [PureU64 SUI_AMOUNT];
        TransferObjects [NestedResult 0 0]
          (PureString SuiTransferCopy.FUND_RECEIVER_ADDRESS)]
  /\ payment_txb
     = [SplitCoins GasCoin [PureU64 SUI_AMOUNT];
        TransferObjects [NestedResult 0 0] (PureString FUND_RECEIVER_ADDRESS)].
Proof.
  apply (SuiTransferMore.handleSuiPayment_copies_agree
           example_env (Some example_signer)).
  intros sign. reflexivity.
Defined.

(** A wallet that reports "InsufficientCoinBalance in command 0". *)
Lemma low_balance_reported_witness :
  toast_errors
    (trace example_env_poor (handleSubmit example_backend example_props))
  = ["Insufficient SUI balance"]
  /\ count is_sign
       (trace example_env_poor (handleSubmit example_backend example_props))
     = 1
  /\ count is_post
       (trace example_env_poor (handleSubmit example_backend example_props))
     = 0
  /\ forall st,
       final_state st
         (trace example_env_poor (handleSubmit example_backend example_props))
       = {| loading := false; formData := formData st;
            previewUrl := previewUrl st |}.
Proof.
  apply (AgentPageMore.low_balance_reported
           example_backend example_env_poor example_props
           example_account example_signer example_balance_error
           eq_refl eq_refl eq_refl example_filled_fields eq_refl eq_refl).
  apply (SuiTransferFacts.mentions_lower_includes
           example_balance_error "insufficient" eq_refl).
  reflexivity.
Defined.

(** A wallet that reports "User REJECTED the request". *)
Lemma wallet_rejection_reported_witness :
  toast_errors
    (trace example_env_rejected (handleSubmit example_backend example_props))
  = ["Transaction rejected by user"]
  /\ count is_sign
       (trace example_env_rejected
          (handleSubmit example_backend example_props)) = 1
  /\ count is_post
       (trace example_env_rejected
          (handleSubmit example_backend example_props)) = 0
  /\ forall st,
       final_state st
         (trace example_env_rejected
            (handleSubmit example_backend example_props))
       = {| loading := false; formData := formData st;
            previewUrl := previewUrl st |}.
Proof.
  apply (AgentPageMore.wallet_rejection_reported
           example_backend example_env_rejected example_props
           example_account example_signer example_wallet_error
           eq_refl eq_refl eq_refl example_filled_fields eq_refl eq_refl).
  - intros H.
    apply (SuiTransferFacts.mentions_lower_includes
             example_wallet_error "insufficient" eq_refl) in H.
    discriminate H.
  - apply (SuiTransferFacts.mentions_lower_includes
             example_wallet_error "reject" eq_refl).
    reflexivity.
Defined.

(** A wallet that fails without a message: the fallback is shown. *)
Lemma unknown_wallet_error_reported_witness :
  toast_errors
    (trace example_env_silent (handleSubmit example_backend example_props))
  = [fallback_message]
  /\ count is_post
       (trace example_env_silent (handleSubmit example_backend example_props))
     = 0
  /\ forall st,
       final_state st
         (trace example_env_silent
            (handleSubmit example_backend example_props))
       = {| loading := false; formData := formData st;
            previewUrl := previewUrl st |}.
Proof.
  apply (AgentPageMore.unknown_wallet_error_reported
           example_backend example_env_silent example_props
           example_account example_signer example_silent_error
           eq_refl eq_refl eq_refl example_filled_fields eq_refl eq_refl).
  - intros (m & Hm & _). discriminate Hm.
  - intros (m & Hm & _). discriminate Hm.
Defined.

(** A backend out of reach: "Network Error" is shown as it is. *)
Lemma backend_error_reported_witness :
  toast_errors
    (trace example_env_offline (handleSubmit example_backend example_props))
  = ["Network Error"].
Proof.
  exact (AgentPageMore.backend_error_reported
           example_backend example_env_offline example_props
           example_account example_signer example_response
           example_network_error
           eq_refl eq_refl eq_refl example_filled_fields
           eq_refl eq_refl eq_refl eq_refl eq_refl).
Defined.


(** The example image, picked while the form holds the example draft and
    read without success. *)
Lemma handleImageUpload_state_witness :
  final_state initialState
    (trace example_env (handleImageUpload example_form (Some example_image)))
  = {| loading := false;
       formData := {| name := "Bot"; twitter := "@bot"; website := "";
                      description := "desc";
                      profilePicture := Some example_image |};
       previewUrl := None |}
  /\ (example_env _ (ReadAsDataURL example_image) = None ->
      previewUrl
        (final_state initialState
           (trace example_env
              (handleImageUpload example_form (Some example_image))))
      = None
      /\ profilePicture
           (formData
              (final_state initialState
                 (trace example_env
                    (handleImageUpload example_form (Some example_image)))))
         = Some example_image).
Proof.
  exact (AgentPageForm.handleImageUpload_state
           example_env example_form example_image initialState
           example_image_acceptable).
Defined.

(** The page that holds the example image. *)
Lemma attached_picture_acceptable_witness :
  picture_ok (formData (comp example_uploading))
  /\ forall creator_wallet payment_tx key file,
       In (key, FileField file)
         (build_submitData (formData (comp example_uploading))
            creator_wallet payment_tx) ->
       acceptable_image file.
Proof.
  exact (EventLoopMore.attached_picture_acceptable
           example_backend example_props example_uploading
           example_uploading_reachable).
Defined.

(** On the example page the file is attached and being read. *)
Example example_uploading_attached :
  profilePicture (formData (comp example_uploading)) = Some example_image
  /\ List.length (uploads example_uploading) = 1.
Proof. split; reflexivity. Qed.

(** The page that waits at the prompt reads "Processing...". *)
Lemma submit_label_tracks_flight_witness :
  (AgentPageView.submit_label (loading (comp example_waiting))
   = "Processing..."
   <-> submissions example_waiting <> [])
  /\ (AgentPageView.submit_label (loading (comp example_waiting))
      = "Submit Proposal (1 SUI)"
      <-> submissions example_waiting = []).
Proof.
  exact (EventLoopMore.submit_label_tracks_flight
           example_backend example_props example_waiting
           example_waiting_reachable).
Defined.

End WorkedAttemptMore.
